(** * yahoofinance-mcp: rate limiting, retrying fetch and report pipelines

    A shallow embedding of [src/index.ts]: the fixed-window rate limiter
    ([checkRateLimit]), the retry loop around [fetch] ([fetchWithRetry]),
    and the three pipelines ([fetchStockQuote], [fetchMarketData],
    [fetchStockHistory]) with their formatters.

    Conventions.
    - [Date.now()] is an explicit argument [now] (milliseconds, in [Z]).
    - The module-level [requestCount] object, the network and the backoff
      timers are the fields of a [World] that every pipeline threads.
    - A thrown [Error] is represented by its [message].  A pipeline that
      returns gives the request handler a text result; one that throws
      gives it an error result ("Error: " followed by the message).
    - JavaScript numbers are binary64 floating-point values, with the
      arithmetic of the kernel's primitive floats.
    - [console.error] output and the fixed request headers of
      [getHeaders()] are not part of the model. *)

From Stdlib Require Import ZArith QArith List String Ascii Bool Lia.
From Stdlib Require Import DecimalString Qround Floats.
Import ListNotations.

Local Open Scope string_scope.
Local Open Scope Z_scope.

(* ===================================================================== *)
(** ** The rate limiter (index.ts, lines 94-129) *)
(* ===================================================================== *)

Module RateLimiter.

(** [const RATE_LIMIT = { perMinute: 20, perDay: 500 }] *)
Definition perMinute : Z := 20.
Definition perDay : Z := 500.

(** [let requestCount = { minute, day, lastMinuteReset, lastDayReset }] *)
Record requestCount : Type := mkCount {
  minute : Z;
  day : Z;
  lastMinuteReset : Z;
  lastDayReset : Z
}.

(** The object as the module creates it when it is loaded at time [t0]. *)
Definition initial (t0 : Z) : requestCount :=
  {| minute := 0; day := 0; lastMinuteReset := t0; lastDayReset := t0 |}.

Definition rateLimitMessage : string :=
  "Rate limit exceeded. Please try again later.".

(** The two window resets at the head of [checkRateLimit]. *)
Definition resetMinute (now : Z) (rc : requestCount) : requestCount :=
  if 60000 <? now - lastMinuteReset rc
  then {| minute := 0; day := day rc;
          lastMinuteReset := now; lastDayReset := lastDayReset rc |}
  else rc.

Definition resetDay (now : Z) (rc : requestCount) : requestCount :=
  if 86400000 <? now - lastDayReset rc
  then {| minute := minute rc; day := 0;
          lastMinuteReset := lastMinuteReset rc; lastDayReset := now |}
  else rc.

Definition resetWindows (now : Z) (rc : requestCount) : requestCount :=
  resetDay now (resetMinute now rc).

Definition increment (rc : requestCount) : requestCount :=
  {| minute := minute rc + 1; day := day rc + 1;
     lastMinuteReset := lastMinuteReset rc; lastDayReset := lastDayReset rc |}.

(** [checkRateLimit()]: [inl msg] is the thrown error, [inr tt] a normal
    return; the second component is [requestCount] afterwards.  The
    resets are kept when the call throws. *)
Definition checkRateLimit (now : Z) (rc : requestCount)
  : (string + unit) * requestCount :=
  let rc' := resetWindows now rc in
  if (perMinute <=? minute rc') || (perDay <=? day rc')
  then (inl rateLimitMessage, rc')
  else (inr tt, increment rc').

(** A sequence of calls, one per element of [times]: which of them
    returned normally, and [requestCount] at the end. *)
Fixpoint runCalls (times : list Z) (rc : requestCount)
  : list bool * requestCount :=
  match times with
  | [] => ([], rc)
  | t :: ts =>
      let r := checkRateLimit t rc in
      let rest := runCalls ts (snd r) in
      (match fst r with inr _ => true | inl _ => false end :: fst rest,
       snd rest)
  end.

End RateLimiter.

(* ===================================================================== *)
(** ** JavaScript values used by the pipelines *)
(* ===================================================================== *)

(** Numbers are IEEE 754 binary64 values, the kernel's primitive floats:
    [-], [*] and [/] round as the operators of the source do, and [NaN],
    the two infinities and the two zeros are values like any other. *)
Definition number : Type := float.

Definition NaN : number := PrimFloat.nan.

(** [a - b] *)
Definition nsub (a b : number) : number := PrimFloat.sub a b.

(** [a * b] *)
Definition nmul (a b : number) : number := PrimFloat.mul a b.

(** [a / b] *)
Definition ndiv (a b : number) : number := PrimFloat.div a b.

(** The double nearest to an integer: the integer itself up to 2^53. *)
Definition ofZ (z : Z) : number :=
  SF2Prim (binary_normalize prec emax z 0 false).

(** Truthiness of a number: [0], [-0] and [NaN] are falsy. *)
Definition ntruthy (a : number) : bool :=
  negb (PrimFloat.is_zero a || PrimFloat.is_nan a).

(** A numeric property of a decoded JSON object: missing ([undefined]),
    [null], or a number. *)
Inductive jsnum : Type :=
| NUndef
| NNull
| NVal (x : number).

(** A string property of a decoded JSON object. *)
Inductive jsstr : Type :=
| SUndef
| SNull
| SVal (s : string).

(** [ToNumber], applied by the arithmetic operators. *)
Definition toNumber (v : jsnum) : number :=
  match v with
  | NUndef => NaN
  | NNull => ofZ 0
  | NVal x => x
  end.

(** [v] as the condition of [||], [&&] or [if]. *)
Definition truthyNum (v : jsnum) : bool :=
  match v with
  | NVal x => ntruthy x
  | _ => false
  end.

Definition truthyStr (v : jsstr) : bool :=
  match v with
  | SVal s => negb (String.eqb s "")
  | _ => false
  end.

(** [a || b] on numeric properties and on string properties. *)
Definition orNum (a b : jsnum) : jsnum := if truthyNum a then a else b.
Definition orStr (a b : jsstr) : jsstr := if truthyStr a then a else b.

(** [arr?.[i]] where [arr] may be missing ([None]); an index out of range
    reads [undefined]. *)
Definition optIndex (arr : option (list jsnum)) (i : nat) : jsnum :=
  match arr with
  | None => NUndef
  | Some l => nth i l NUndef
  end.

(** A string property inside a template literal. *)
Definition templateStr (v : jsstr) : string :=
  match v with
  | SUndef => "undefined"
  | SNull => "null"
  | SVal s => s
  end.

(* ===================================================================== *)
(** ** Strings *)
(* ===================================================================== *)

(** An integer inside a template literal. *)
Definition showZ (z : Z) : string := NilZero.string_of_int (Z.to_int z).

(** [Array.prototype.join] *)
Definition join (sep : string) (l : list string) : string :=
  String.concat sep l.

Fixpoint spaces (n : nat) : string :=
  match n with
  | O => ""
  | S k => String " " (spaces k)
  end.

(** [s.padEnd(n)] *)
Definition padEnd (n : nat) (s : string) : string :=
  s ++ spaces (n - String.length s).

Definition isSpace (c : ascii) : bool :=
  let n := nat_of_ascii c in
  ((9 <=? n) && (n <=? 13))%nat || (n =? 32)%nat.

Fixpoint trimStart (s : string) : string :=
  match s with
  | String c rest => if isSpace c then trimStart rest else s
  | EmptyString => EmptyString
  end.

Fixpoint trimEnd (s : string) : string :=
  match s with
  | EmptyString => EmptyString
  | String c rest =>
      match trimEnd rest with
      | EmptyString => if isSpace c then EmptyString else String c EmptyString
      | t => String c t
      end
  end.

(** [s.trim()], for the ASCII white space the templates contain. *)
Definition trim (s : string) : string := trimEnd (trimStart s).

(** [encodeURIComponent]: every byte outside the unreserved set becomes
    a percent escape. *)
Definition hexDigit (n : nat) : ascii :=
  if (n <? 10)%nat then ascii_of_nat (48 + n) else ascii_of_nat (55 + n).

Definition unreserved (c : ascii) : bool :=
  let n := nat_of_ascii c in
  ((48 <=? n) && (n <=? 57))%nat || ((65 <=? n) && (n <=? 90))%nat
  || ((97 <=? n) && (n <=? 122))%nat
  || existsb (Nat.eqb n) [45; 95; 46; 33; 126; 42; 39; 40; 41]%nat.

Fixpoint encodeURIComponent (s : string) : string :=
  match s with
  | EmptyString => EmptyString
  | String c rest =>
      if unreserved c then String c (encodeURIComponent rest)
      else
        let n := nat_of_ascii c in
        String "%" (String (hexDigit (n / 16)) (String (hexDigit (n mod 16))
          (encodeURIComponent rest)))
  end.

(** Decimal digits of [z >= 0], left-padded with zeros to [width]. *)
Fixpoint zeros (n : nat) : string :=
  match n with
  | O => ""
  | S k => String "0" (zeros k)
  end.

Definition padZeros (width : nat) (z : Z) : string :=
  let d := showZ z in zeros (width - String.length d) ++ d.

(** *** Numbers as decimal strings *)

(** The value [m * 2^e] of a finite double with mantissa [m] and
    exponent [e], as [Prim2SF] gives them. *)
Definition exact (m : positive) (e : Z) : Q :=
  (inject_Z (Zpos m) * Qpower 2 e)%Q.

Definition Qless (a b : Q) : bool := negb (Qle_bool b a).

(** The rationals that round to the double [m * 2^e]: those no farther
    than half the gap to its neighbours, the two ends included when [m]
    is even.  The gap below a power of two is half the gap above. *)
Definition roundsTo (m : positive) (e : Z) (c : Q) : bool :=
  let v := exact m e in
  let half := Qpower 2 (e - 1) in
  let below :=
    if (Zpos m =? 2 ^ 52) && (-1074 <? e) then (half / 2)%Q else half in
  if Z.even (Zpos m)
  then Qle_bool (v - below)%Q c && Qle_bool c (v + half)%Q
  else Qless (v - below)%Q c && Qless c (v + half)%Q.

Fixpoint leadingFrom (fuel : nat) (j : Z) (v : Q) : Z :=
  match fuel with
  | O => j
  | S fuel' =>
      if Qle_bool 1 (v * Qpower 10 j)%Q then j
      else leadingFrom fuel' (j + 1) v
  end.

(** The [n] with [10^(n-1) <= v < 10^n], for [v > 0]; the least positive
    double is above [10^-324]. *)
Definition decimalExponent (v : Q) : Z :=
  if Qle_bool 1 v then Z.of_nat (String.length (showZ (Qfloor v)))
  else 1 - leadingFrom 400 1 v.

(** The decimal [s * 10^p] of [k] digits that rounds to the double, the
    nearest one if there are two, if there is any; [n] is the decimal
    exponent of the double. *)
Definition withDigits (m : positive) (e : Z) (n k : Z) : option (Z * Z) :=
  let p := n - k in
  let scaled := (exact m e * Qpower 10 (- p))%Q in
  let low := Qfloor scaled in
  let high := low + 1 in
  let okLow :=
    roundsTo m e (inject_Z low * Qpower 10 p)%Q && (10 ^ (k - 1) <=? low) in
  let okHigh := roundsTo m e (inject_Z high * Qpower 10 p)%Q in
  let dLow := (scaled - inject_Z low)%Q in
  let dHigh := (inject_Z high - scaled)%Q in
  if okLow && okHigh then
    if Qless dLow dHigh then Some (low, p)
    else if Qless dHigh dLow then Some (high, p)
    else Some (if Z.even low then low else high, p)
  else if okLow then Some (low, p)
  else if okHigh then Some (high, p)
  else None.

(** The first number of digits, from [k] on, with such a decimal; 17
    digits always have one. *)
Fixpoint shortestFrom (fuel : nat) (m : positive) (e : Z) (n k : Z)
  : Z * Z :=
  match fuel with
  | O => (Qfloor (exact m e * Qpower 10 (k - n) + (1 # 2))%Q, n - k)
  | S fuel' =>
      match withDigits m e n k with
      | Some r => r
      | None => shortestFrom fuel' m e n (k + 1)
      end
  end.

Fixpoint stripTens (fuel : nat) (s p : Z) : Z * Z :=
  match fuel with
  | O => (s, p)
  | S fuel' =>
      if (s mod 10 =? 0) && negb (s =? 0)
      then stripTens fuel' (s / 10) (p + 1)
      else (s, p)
  end.

(** The shortest decimal [s * 10^p] that reads back as the double
    [m * 2^e]: the digits of [Number::toString]. *)
Definition shortest (m : positive) (e : Z) : Z * Z :=
  let (s, p) := shortestFrom 17 m e (decimalExponent (exact m e)) 1 in
  stripTens 20 s p.

(** The notation [Number::toString] chooses for [s * 10^p]: plain up to
    21 integer digits and down to six zeros after the point, exponential
    beyond. *)
Definition showDecimal (s p : Z) : string :=
  let digits := showZ s in
  let k := Z.of_nat (String.length digits) in
  let n := k + p in
  if (k <=? n) && (n <=? 21) then digits ++ zeros (Z.to_nat (n - k))
  else if (0 <? n) && (n <=? 21) then
    substring 0 (Z.to_nat n) digits ++ "."
      ++ substring (Z.to_nat n) (Z.to_nat (k - n)) digits
  else if (-6 <? n) && (n <=? 0) then "0." ++ zeros (Z.to_nat (- n)) ++ digits
  else
    let exponent :=
      (if 0 <=? n - 1 then "+" else "-") ++ showZ (Z.abs (n - 1)) in
    if k =? 1 then digits ++ "e" ++ exponent
    else substring 0 1 digits ++ "."
           ++ substring 1 (Z.to_nat (k - 1)) digits ++ "e" ++ exponent.

(** [Number.prototype.toString()] *)
Definition showNumber (x : number) : string :=
  match Prim2SF x with
  | S754_nan => "NaN"
  | S754_zero _ => "0"
  | S754_infinity s => (if s then "-" else "") ++ "Infinity"
  | S754_finite s m e =>
      let (d, p) := shortest m e in
      (if s then "-" else "") ++ showDecimal d p
  end.

(** [x.toFixed(2)]: the exact value of the double to two decimals, a tie
    away from zero; from 1e21 on, the digits of [toString]. *)
Definition toFixed2 (x : number) : string :=
  match Prim2SF x with
  | S754_nan => "NaN"
  | S754_zero _ => "0.00"
  | S754_infinity s => (if s then "-" else "") ++ "Infinity"
  | S754_finite s m e =>
      (if s then "-" else "")
        ++ (if Qle_bool (inject_Z (10 ^ 21)) (exact m e)
            then let (d, p) := shortest m e in showDecimal d p
            else
              let n := Qfloor (exact m e * 100 + (1 # 2))%Q in
              showZ (n / 100) ++ "." ++ padZeros 2 (n mod 100))
  end.

(* ===================================================================== *)
(** ** What depends on the host's locale and time zone *)
(* ===================================================================== *)

(** [Number.prototype.toLocaleString()], [Date.prototype.toLocaleDateString()]
    (of the date [new Date(ms)]) and the instant of local January 1st,
    00:00 of the year that contains [Date.now()]. *)
Record Host : Type := mkHost {
  toLocaleString : number -> string;
  toLocaleDateString : number -> string;
  startOfYear : Z -> Z
}.

(** *** A reference host: locale en-US, time zone UTC *)

Fixpoint commas (s : string) : string :=
  match s with
  | EmptyString => EmptyString
  | String c rest =>
      String c
        (if (negb (String.length rest =? 0)%nat
             && (String.length rest mod 3 =? 0)%nat)%bool
         then String "," (commas rest) else commas rest)
  end.

Fixpoint stripZeros (s : string) : string :=
  match s with
  | EmptyString => EmptyString
  | String c rest =>
      match stripZeros rest with
      | EmptyString => if Ascii.eqb c "0" then EmptyString else String c EmptyString
      | t => String c t
      end
  end.

(** Grouped integer part and at most three fraction digits of the
    shortest decimal of the double, a tie away from zero. *)
Definition enUS_number (x : number) : string :=
  match Prim2SF x with
  | S754_nan => "NaN"
  | S754_zero s => (if s then "-" else "") ++ "0"
  | S754_infinity s => (if s then "-" else "") ++ "∞"
  | S754_finite s m e =>
      let (d, p) := shortest m e in
      let n := Qfloor (inject_Z d * Qpower 10 (p + 3) + (1 # 2))%Q in
      let frac := stripZeros (padZeros 3 (n mod 1000)) in
      (if s then "-" else "")
        ++ commas (showZ (n / 1000))
        ++ (if String.eqb frac "" then "" else "." ++ frac)
  end.

(** Days since 1970-01-01 to (year, month, day) and back, proleptic
    Gregorian calendar. *)
Definition civilFromDays (days : Z) : Z * Z * Z :=
  let z := days + 719468 in
  let era := z / 146097 in
  let doe := z - era * 146097 in
  let yoe := (doe - doe / 1460 + doe / 36524 - doe / 146096) / 365 in
  let doy := doe - (365 * yoe + yoe / 4 - yoe / 100) in
  let mp := (5 * doy + 2) / 153 in
  let d := doy - (153 * mp + 2) / 5 + 1 in
  let m := if mp <? 10 then mp + 3 else mp - 9 in
  let y := yoe + era * 400 + (if m <=? 2 then 1 else 0) in
  (y, m, d).

Definition daysFromCivil (y m d : Z) : Z :=
  let y' := if m <=? 2 then y - 1 else y in
  let era := y' / 400 in
  let yoe := y' - era * 400 in
  let doy := (153 * (if 2 <? m then m - 3 else m + 9) + 2) / 5 + d - 1 in
  let doe := yoe * 365 + yoe / 4 - yoe / 100 + doy in
  era * 146097 + doe - 719468.

(** The time value of [new Date(ms)]: [ms] without its fraction, if it is
    finite and within 8.64e15 of the epoch. *)
Definition timeClip (ms : number) : option Z :=
  match Prim2SF ms with
  | S754_zero _ => Some 0
  | S754_finite s m e =>
      if Qle_bool (exact m e) (inject_Z 8640000000000000)
      then Some (if s then - Qfloor (exact m e) else Qfloor (exact m e))
      else None
  | _ => None
  end.

(** Month/day/year of the instant, for the years from 1 on. *)
Definition utc_date (ms : number) : string :=
  match timeClip ms with
  | Some t =>
      let '(y, m, d) := civilFromDays (t / 86400000) in
      showZ m ++ "/" ++ showZ d ++ "/" ++ showZ y
  | None => "Invalid Date"
  end.

Definition utc_startOfYear (now : Z) : Z :=
  let '(y, _, _) := civilFromDays (now / 86400000) in
  daysFromCivil y 1 1 * 86400000.

Definition enUS_UTC : Host :=
  {| toLocaleString := enUS_number;
     toLocaleDateString := utc_date;
     startOfYear := utc_startOfYear |}.

(* ===================================================================== *)
(** ** The upstream payload (chart endpoint) and the HTTP response *)
(* ===================================================================== *)

(** [result.meta.instrumentInfo] *)
Module InstrumentInfo.
Record t : Type := mk {
  shortName : jsstr;
  longName : jsstr
}.
End InstrumentInfo.

(** [result.meta]: the properties the pipelines read. *)
Module Meta.
Record t : Type := mk {
  symbol : jsstr;
  shortName : jsstr;
  longName : jsstr;
  currency : jsstr;
  regularMarketPrice : jsnum;
  chartPreviousClose : jsnum;
  previousClose : jsnum;
  regularMarketDayLow : jsnum;
  regularMarketDayHigh : jsnum;
  fiftyTwoWeekLow : jsnum;
  fiftyTwoWeekHigh : jsnum;
  regularMarketVolume : jsnum;
  firstTradeDate : jsnum;
  regularMarketTime : jsnum;
  instrumentInfo : option InstrumentInfo.t
}.
End Meta.

(** [result.indicators.quote[0]]: one array per column, each possibly
    missing. *)
Module QuoteSeries.
Record t : Type := mk {
  open : option (list jsnum);
  high : option (list jsnum);
  low : option (list jsnum);
  close : option (list jsnum);
  volume : option (list jsnum)
}.
(** The empty object [{}]. *)
Definition empty : t := mk None None None None None.
End QuoteSeries.

(** [data.chart.result[0]].  [quote0] is [indicators?.quote?.[0]]. *)
Module ChartResult.
Record t : Type := mk {
  meta : option Meta.t;
  timestamp : option (list jsnum);
  quote0 : option QuoteSeries.t
}.
End ChartResult.

(** What [await response.json()] followed by [data.chart?.result?.[0]]
    gives: an exception (the body is not JSON, or [data] has no
    properties to read), or the first result entry if there is one. *)
Inductive JsonBody : Type :=
| JsonThrows (message : string)
| JsonResult (result : option ChartResult.t).

Module Response.
Record t : Type := mk {
  status : Z;
  statusText : string;
  body : JsonBody
}.
(** [response.ok] *)
Definition ok (r : t) : bool := (200 <=? status r) && (status r <=? 299).
End Response.

(** One settled [fetch(url, options)]: rejected with an error, or
    fulfilled with a response. *)
Inductive FetchOutcome : Type :=
| Rejected (message : string)
| Fulfilled (response : Response.t).

(** The network: what the [k]-th [fetch] of the process (counting from 0)
    settles with, given its URL. *)
Definition Network : Type := nat -> string -> FetchOutcome.

(* ===================================================================== *)
(** ** The world and the monad of the async functions *)
(* ===================================================================== *)

(** [counts] is the module-level [requestCount]; [fetched] lists the URLs
    passed to [fetch] so far, oldest first; [waits] lists the delays
    (milliseconds) of the backoff timers awaited so far. *)
Record World : Type := mkWorld {
  counts : RateLimiter.requestCount;
  fetched : list string;
  waits : list Z
}.

Inductive Outcome (A : Type) : Type :=
| Returned (a : A)
| Thrown (message : string).
Arguments Returned {A} a.
Arguments Thrown {A} message.

Definition M (A : Type) : Type := World -> Outcome A * World.

Definition ret {A} (a : A) : M A := fun w => (Returned a, w).

Definition throw {A} (message : string) : M A := fun w => (Thrown message, w).

Definition bind {A B} (m : M A) (k : A -> M B) : M B :=
  fun w =>
    match m w with
    | (Returned a, w') => k a w'
    | (Thrown e, w') => (Thrown e, w')
    end.

(** [try { m } catch (error) { handler(error.message) }]: the effects of
    [m] up to the throw stay. *)
Definition tryCatch {A} (m : M A) (handler : string -> M A) : M A :=
  fun w =>
    match m w with
    | (Returned a, w') => (Returned a, w')
    | (Thrown e, w') => handler e w'
    end.

Declare Scope js_scope.
Delimit Scope js_scope with js.
Notation "x <- m ;; k" := (bind m (fun x => k))
  (at level 61, m at next level, right associativity) : js_scope.
Notation "m ;; k" := (bind m (fun _ => k))
  (at level 61, right associativity) : js_scope.
Local Open Scope js_scope.

(** [checkRateLimit()] on the world's [requestCount]. *)
Definition checkRateLimit (now : Z) : M unit :=
  fun w =>
    let r := RateLimiter.checkRateLimit now (counts w) in
    let w' := {| counts := snd r; fetched := fetched w; waits := waits w |} in
    match fst r with
    | inl e => (Thrown e, w')
    | inr _ => (Returned tt, w')
    end.

(** [await new Promise(resolve => setTimeout(resolve, ms))] *)
Definition sleep (ms : Z) : M unit :=
  fun w =>
    (Returned tt,
     {| counts := counts w; fetched := fetched w; waits := waits w ++ [ms] |}).

(** [response.json()] and the extraction of the first result. *)
Definition firstResult (r : Response.t) : M (option ChartResult.t) :=
  match Response.body r with
  | JsonThrows e => throw e
  | JsonResult res => ret res
  end.

(** The object literal [quoteData]; [longName] is what reading the
    property [quote.longName] gives. *)
Module Quote.
Record t : Type := mk {
  symbol : jsstr;
  shortName : jsstr;
  longName : jsstr;
  regularMarketPrice : jsnum;
  regularMarketChange : jsnum;
  regularMarketChangePercent : jsnum;
  regularMarketPreviousClose : jsnum;
  regularMarketOpen : jsnum;
  regularMarketDayLow : jsnum;
  regularMarketDayHigh : jsnum;
  fiftyTwoWeekLow : jsnum;
  fiftyTwoWeekHigh : jsnum;
  regularMarketVolume : jsnum;
  averageDailyVolume3Month : jsnum;
  marketCap : jsnum;
  trailingPE : jsnum;
  epsTrailingTwelveMonths : jsnum;
  dividendYield : jsnum
}.
End Quote.

(** An element of [indexResults] in [fetchMarketData]; [longName] is
    what reading the property [index.longName] gives. *)
Module IndexRecord.
Record t : Type := mk {
  symbol : string;
  shortName : jsstr;
  longName : jsstr;
  regularMarketPrice : jsnum;
  regularMarketChange : jsnum;
  regularMarketChangePercent : jsnum;
  regularMarketPreviousClose : jsnum;
  regularMarketDayHigh : jsnum;
  regularMarketDayLow : jsnum
}.
End IndexRecord.

Section Pipelines.

Variable host : Host.
Variable net : Network.

(** [await fetch(url, options)] *)
Definition doFetch (url : string) : M FetchOutcome :=
  fun w =>
    (Returned (net (List.length (fetched w)) url),
     {| counts := counts w; fetched := fetched w ++ [url]; waits := waits w |}).

(** [Math.pow(2, retries) * 1000] *)
Definition backoff (retries : nat) : Z := 2 ^ Z.of_nat retries * 1000.

(** The [while (retries < maxRetries)] loop of [fetchWithRetry];
    [remaining] is [maxRetries - retries], which every iteration that does
    not return decreases by one. *)
Fixpoint retryLoop (remaining retries : nat) (lastError : option string)
    (url : string) : M Response.t :=
  match remaining with
  | O =>
      throw (match lastError with
             | Some e => e
             | None => "Maximum retries exceeded"
             end)
  | S remaining' =>
      settled <- doFetch url ;;
      match settled with
      | Fulfilled response =>
          if Response.status response =? 429
          then sleep (backoff retries) ;;
               retryLoop remaining' (S retries) lastError url
          else ret response
      | Rejected e =>
          sleep (backoff retries) ;;
          retryLoop remaining' (S retries) (Some e) url
      end
  end.

Definition fetchWithRetry (url : string) (maxRetries : nat) : M Response.t :=
  retryLoop maxRetries 0 None url.

(** [s || 'N/A'] for a string [s]. *)
Definition orDefault (s fallback : string) : string :=
  if String.eqb s "" then fallback else s.

(** [v?.toLocaleString() || 'N/A'] and [v?.toFixed(2) || 'N/A'] *)
Definition optLocale (v : jsnum) : string :=
  match v with
  | NVal x => orDefault (toLocaleString host x) "N/A"
  | _ => "N/A"
  end.

Definition optFixed (v : jsnum) : string :=
  match v with
  | NVal x => orDefault (toFixed2 x) "N/A"
  | _ => "N/A"
  end.

(** *** The quote pipeline (index.ts, lines 210-319) *)

(** [quotes.<column>?.[i]] where [quotes] is [indicators?.quote?.[0]]. *)
Definition column (q : option QuoteSeries.t)
    (col : QuoteSeries.t -> option (list jsnum)) (i : nat) : jsnum :=
  match q with
  | None => NUndef
  | Some s => optIndex (col s) i
  end.

(** Lines 236-254: the record built when [result.meta] is present. *)
Definition quoteData (m : Meta.t) (result : ChartResult.t) (symbol : string)
  : Quote.t :=
  let price := toNumber (Meta.regularMarketPrice m) in
  let prev := toNumber (Meta.chartPreviousClose m) in
  let q := ChartResult.quote0 result in
  {| Quote.symbol := Meta.symbol m;
     Quote.shortName :=
       orStr (orStr (Meta.shortName m) (Meta.longName m)) (SVal symbol);
     Quote.longName := SUndef;
     Quote.regularMarketPrice := Meta.regularMarketPrice m;
     Quote.regularMarketChange := NVal (nsub price prev);
     Quote.regularMarketChangePercent := NVal (ndiv (nsub price prev) prev);
     Quote.regularMarketPreviousClose := Meta.chartPreviousClose m;
     Quote.regularMarketOpen := column q QuoteSeries.open 0;
     Quote.regularMarketDayLow :=
       orNum (Meta.regularMarketDayLow m) (column q QuoteSeries.low 0);
     Quote.regularMarketDayHigh :=
       orNum (Meta.regularMarketDayHigh m) (column q QuoteSeries.high 0);
     Quote.fiftyTwoWeekLow := Meta.fiftyTwoWeekLow m;
     Quote.fiftyTwoWeekHigh := Meta.fiftyTwoWeekHigh m;
     Quote.regularMarketVolume :=
       orNum (Meta.regularMarketVolume m) (column q QuoteSeries.volume 0);
     Quote.averageDailyVolume3Month := NNull;
     Quote.marketCap := NNull;
     Quote.trailingPE := NNull;
     Quote.epsTrailingTwelveMonths := NNull;
     Quote.dividendYield := NNull |}.

(** The two local helpers of [formatStockQuote]. *)
Definition formatNumber (num : jsnum) : string :=
  match num with
  | NVal x => toLocaleString host x
  | _ => "N/A"
  end.

Definition formatPercent (num : jsnum) : string :=
  match num with
  | NVal x => toFixed2 (nmul x (ofZ 100)) ++ "%"
  | _ => "N/A"
  end.

(** A template literal: a line break, then every line followed by a line
    break. *)
Definition template (lines : list string) : string :=
  String "010" (String.concat "" (map (fun l => l ++ String "010" "") lines)).

(** The fourteen lines of the report, in order. *)
Definition quoteLines (quote : Quote.t) : list string :=
  [ "Symbol: " ++ templateStr (Quote.symbol quote);
    "Name: " ++ templateStr
      (orStr (orStr (Quote.shortName quote) (Quote.longName quote)) (SVal "N/A"));
    "Price: $" ++ formatNumber (Quote.regularMarketPrice quote);
    "Change: $" ++ formatNumber (Quote.regularMarketChange quote)
      ++ " (" ++ formatPercent (Quote.regularMarketChangePercent quote) ++ ")";
    "Previous Close: $" ++ formatNumber (Quote.regularMarketPreviousClose quote);
    "Open: $" ++ formatNumber (Quote.regularMarketOpen quote);
    "Day Range: $" ++ formatNumber (Quote.regularMarketDayLow quote)
      ++ " - $" ++ formatNumber (Quote.regularMarketDayHigh quote);
    "52 Week Range: $" ++ formatNumber (Quote.fiftyTwoWeekLow quote)
      ++ " - $" ++ formatNumber (Quote.fiftyTwoWeekHigh quote);
    "Volume: " ++ formatNumber (Quote.regularMarketVolume quote);
    "Avg. Volume: " ++ formatNumber (Quote.averageDailyVolume3Month quote);
    "Market Cap: $" ++ formatNumber (Quote.marketCap quote);
    "P/E Ratio: " ++ formatNumber (Quote.trailingPE quote);
    "EPS: $" ++ formatNumber (Quote.epsTrailingTwelveMonths quote);
    "Dividend Yield: " ++ formatPercent (Quote.dividendYield quote) ].

Definition formatStockQuote (quote : Quote.t) : string :=
  trim (template (quoteLines quote)).

(** [meta.<property>] where [meta] is [chartData.meta || {}]. *)
Definition metaNum (m : option Meta.t) (f : Meta.t -> jsnum) : jsnum :=
  match m with
  | Some x => f x
  | None => NUndef
  end.

Definition instrumentName (m : option Meta.t)
    (f : InstrumentInfo.t -> jsstr) : jsstr :=
  match m with
  | Some x =>
      match Meta.instrumentInfo x with
      | Some i => f i
      | None => SUndef
      end
  | None => SUndef
  end.

(** [formatBasicQuote]: nothing in its [try] block can throw on a payload
    of this shape, so the [catch] branch has no counterpart. *)
Definition formatBasicQuote (chartData : ChartResult.t) (symbol : string)
  : string :=
  let meta := ChartResult.meta chartData in
  let currentPrice := metaNum meta Meta.regularMarketPrice in
  let previousClose := metaNum meta Meta.previousClose in
  let change := nsub (toNumber currentPrice) (toNumber previousClose) in
  let changePercent := nmul (ndiv change (toNumber previousClose)) (ofZ 100) in
  trim (template
    [ "Symbol: " ++ symbol;
      "Name: " ++ templateStr
        (orStr (orStr (instrumentName meta InstrumentInfo.shortName)
                      (instrumentName meta InstrumentInfo.longName))
               (SVal symbol));
      "Price: $" ++ optLocale currentPrice;
      "Change: $" ++ optFixed (NVal change)
        ++ " (" ++ optFixed (NVal changePercent) ++ "%)";
      "Previous Close: $" ++ optLocale previousClose;
      "";
      "Note: Full quote data is unavailable. Showing limited information from chart data." ]).

Definition chartUrl (symbol : string) (period1 period2 : Z) (interval : string)
  : string :=
  "https://query2.finance.yahoo.com/v8/finance/chart/"
    ++ encodeURIComponent symbol
    ++ "?period1=" ++ showZ period1 ++ "&period2=" ++ showZ period2
    ++ "&interval=" ++ interval ++ "&events=history".

Definition unableQuote (symbol : string) : string :=
  "Unable to retrieve data for symbol: " ++ symbol
    ++ ". The ticker symbol may be invalid or Yahoo Finance data may be temporarily unavailable.".

(** [catch (error) { throw new Error(prefix + error.message) }] *)
Definition rethrow {A} (prefix : string) (m : M A) : M A :=
  tryCatch m (fun e => throw (prefix ++ e)).

Definition fetchStockQuote (now : Z) (symbol : string) : M string :=
  checkRateLimit now ;;
  rethrow "Failed to fetch stock quote: "
    (let now' := now / 1000 in
     let oneMinuteAgo := now' - 60 in
     chartResponse <- fetchWithRetry (chartUrl symbol oneMinuteAgo now' "1d") 3 ;;
     if Response.ok chartResponse then
       result <- firstResult chartResponse ;;
       match result with
       | Some result =>
           match ChartResult.meta result with
           | Some m => ret (formatStockQuote (quoteData m result symbol))
           | None => ret (formatBasicQuote result symbol)
           end
       | None => ret (unableQuote symbol)
       end
     else ret (unableQuote symbol)).

(** *** The market-data pipeline (index.ts, lines 321-387) *)

Definition defaultIndices : list string := ["^GSPC"; "^DJI"; "^IXIC"].

(** Lines 347-356: the record pushed for an index whose result has a
    [meta] block. *)
Definition indexRecord (indexSymbol : string) (m : Meta.t) : IndexRecord.t :=
  let price := toNumber (Meta.regularMarketPrice m) in
  let prev := toNumber (Meta.chartPreviousClose m) in
  {| IndexRecord.symbol := indexSymbol;
     IndexRecord.shortName :=
       orStr (orStr (Meta.shortName m) (Meta.longName m)) (SVal indexSymbol);
     IndexRecord.longName := SUndef;
     IndexRecord.regularMarketPrice := Meta.regularMarketPrice m;
     IndexRecord.regularMarketChange := NVal (nsub price prev);
     IndexRecord.regularMarketChangePercent := NVal (ndiv (nsub price prev) prev);
     IndexRecord.regularMarketPreviousClose := Meta.chartPreviousClose m;
     IndexRecord.regularMarketDayHigh := Meta.regularMarketDayHigh m;
     IndexRecord.regularMarketDayLow := Meta.regularMarketDayLow m |}.

(** The body of the inner [try] for one index: [Some r] when a record is
    pushed, [None] when the response is not ok or has no result entry.
    Reading [result.meta.shortName] without a [meta] block throws. *)
Definition tryIndex (period1 period2 : Z) (indexSymbol : string)
  : M (option IndexRecord.t) :=
  chartResponse <- fetchWithRetry (chartUrl indexSymbol period1 period2 "1d") 3 ;;
  if Response.ok chartResponse then
    result <- firstResult chartResponse ;;
    match result with
    | Some result =>
        match ChartResult.meta result with
        | Some m => ret (Some (indexRecord indexSymbol m))
        | None =>
            throw "Cannot read properties of undefined (reading 'shortName')"
        end
    | None => ret None
    end
  else ret None.

(** The [for (const indexSymbol of indices)] loop; [indexResults] is the
    array built so far.  The inner [catch] only logs. *)
Fixpoint indexLoop (period1 period2 : Z) (indices : list string)
    (indexResults : list IndexRecord.t) : M (list IndexRecord.t) :=
  match indices with
  | [] => ret indexResults
  | indexSymbol :: rest =>
      pushed <- tryCatch (tryIndex period1 period2 indexSymbol)
                         (fun _ => ret None) ;;
      indexLoop period1 period2 rest
        (match pushed with
         | Some r => indexResults ++ [r]
         | None => indexResults
         end)
  end.

(** One element of [indices.map(...)] in [formatMarketData]. *)
Definition indexBlock (index : IndexRecord.t) : string :=
  let changePercent :=
    if truthyNum (IndexRecord.regularMarketChangePercent index)
    then toFixed2 (nmul (toNumber (IndexRecord.regularMarketChangePercent index))
                        (ofZ 100)) ++ "%"
    else "N/A" in
  trim (template
    [ templateStr
        (orStr (orStr (IndexRecord.shortName index) (IndexRecord.longName index))
               (SVal (IndexRecord.symbol index)));
      "Price: " ++ optLocale (IndexRecord.regularMarketPrice index);
      "Change: " ++ optLocale (IndexRecord.regularMarketChange index)
        ++ " (" ++ changePercent ++ ")";
      "Previous Close: " ++ optLocale (IndexRecord.regularMarketPreviousClose index);
      "Day Range: " ++ optLocale (IndexRecord.regularMarketDayLow index)
        ++ " - " ++ optLocale (IndexRecord.regularMarketDayHigh index) ]).

(** Two line breaks: the separator of [join] in [formatMarketData]. *)
Definition blankLine : string := String "010" (String "010" "").

Definition formatMarketData (indices : list IndexRecord.t) : string :=
  join blankLine (map indexBlock indices).

Definition unableMarket : string :=
  "Unable to retrieve market data. Yahoo Finance data may be temporarily unavailable.".

(** [indices] is the argument after its default [defaultIndices] has been
    applied to a missing one. *)
Definition fetchMarketData (now : Z) (indices : list string) : M string :=
  checkRateLimit now ;;
  rethrow "Failed to fetch market data: "
    (let now' := now / 1000 in
     let oneMinuteAgo := now' - 60 in
     indexResults <- indexLoop oneMinuteAgo now' indices [] ;;
     if (0 <? List.length indexResults)%nat
     then ret (formatMarketData indexResults)
     else ret unableMarket).

(** *** The history pipeline (index.ts, lines 389-535) *)

Definition validPeriods : list string :=
  ["1d"; "5d"; "1mo"; "3mo"; "6mo"; "1y"; "2y"; "5y"; "10y"; "ytd"; "max"].

Definition validIntervals : list string :=
  ["1m"; "2m"; "5m"; "15m"; "30m"; "60m"; "90m"; "1h"; "1d"; "5d"; "1wk";
   "1mo"; "3mo"].

(** [list.includes(s)] *)
Definition includes (l : list string) (s : string) : bool :=
  existsb (String.eqb s) l.

Definition invalidPeriod (period : string) : string :=
  "Invalid period: " ++ period ++ ". Valid periods are: "
    ++ join ", " validPeriods.

Definition invalidInterval (interval : string) : string :=
  "Invalid interval: " ++ interval ++ ". Valid intervals are: "
    ++ join ", " validIntervals.

(** The [switch (period)]: [period1] from [period2] (seconds) and the
    clock [now] (milliseconds). *)
Definition period1Of (now period2 : Z) (period : string) : Z :=
  if String.eqb period "1d" then period2 - 86400
  else if String.eqb period "5d" then period2 - 5 * 86400
  else if String.eqb period "1mo" then period2 - 30 * 86400
  else if String.eqb period "3mo" then period2 - 90 * 86400
  else if String.eqb period "6mo" then period2 - 180 * 86400
  else if String.eqb period "1y" then period2 - 365 * 86400
  else if String.eqb period "2y" then period2 - 2 * 365 * 86400
  else if String.eqb period "5y" then period2 - 5 * 365 * 86400
  else if String.eqb period "10y" then period2 - 10 * 365 * 86400
  else if String.eqb period "ytd" then startOfYear host now / 1000
  else if String.eqb period "max" then 0
  else period2 - 30 * 86400.

(** The row loop [for (let i = 0; i < length; i += step)]: the indices
    visited.  [step] is at least 1, so [length] iterations are enough as
    [fuel]. *)
Fixpoint rowIndicesFrom (fuel i length step : nat) : list nat :=
  match fuel with
  | O => []
  | S fuel' =>
      if (i <? length)%nat
      then i :: rowIndicesFrom fuel' (i + step) length step
      else []
  end.

Definition maxPoints : nat := 10.

(** [Math.max(1, Math.floor(timestamps.length / maxPoints))] *)
Definition stepOf (length : nat) : nat := Nat.max 1 (length / maxPoints).

Definition rowIndices (length : nat) : list nat :=
  rowIndicesFrom length 0 length (stepOf length).

(** One table row, with its line break. *)
Definition historyRow (timestamps : list jsnum) (quotes : option QuoteSeries.t)
    (i : nat) : string :=
  let date :=
    toLocaleDateString host (nmul (toNumber (nth i timestamps NUndef)) (ofZ 1000)) in
  let open := optFixed (column quotes QuoteSeries.open i) in
  let high := optFixed (column quotes QuoteSeries.high i) in
  let low := optFixed (column quotes QuoteSeries.low i) in
  let close := optFixed (column quotes QuoteSeries.close i) in
  let volume := optLocale (column quotes QuoteSeries.volume i) in
  padEnd 11 date ++ " | $" ++ padEnd 8 open ++ " | $" ++ padEnd 8 high
    ++ " | $" ++ padEnd 8 low ++ " | $" ++ padEnd 8 close ++ " | " ++ volume
    ++ String "010" "".

Definition historyRows (timestamps : list jsnum) (quotes : option QuoteSeries.t)
  : list string :=
  map (historyRow timestamps quotes) (rowIndices (List.length timestamps)).

Definition isUndefined (v : jsnum) : bool :=
  match v with
  | NUndef => true
  | _ => false
  end.

(** Lines 516-529: the text appended after the table, empty when no
    summary is written. *)
Definition historySummary (timestamps : list jsnum)
    (quotes : option QuoteSeries.t) : string :=
  if (0 <? List.length timestamps)%nat then
    let firstIndex := 0%nat in
    let lastIndex := (List.length timestamps - 1)%nat in
    let firstClose := column quotes QuoteSeries.close firstIndex in
    let lastClose := column quotes QuoteSeries.close lastIndex in
    if negb (isUndefined firstClose) && negb (isUndefined lastClose) then
      let change := nsub (toNumber lastClose) (toNumber firstClose) in
      let percentChange := nmul (ndiv change (toNumber firstClose)) (ofZ 100) in
      String "010" "" ++ "Price Change: $" ++ toFixed2 change
        ++ " (" ++ toFixed2 percentChange ++ "%)"
    else ""
  else "".

Definition historyHeader (meta : option Meta.t) (symbol period interval : string)
  : string :=
  let currency :=
    templateStr
      (orStr (match meta with Some m => Meta.currency m | None => SUndef end)
             (SVal "USD")) in
  let firstTradeDate := metaNum meta Meta.firstTradeDate in
  let regularMarketTime := metaNum meta Meta.regularMarketTime in
  "Historical data for " ++ symbol ++ " (" ++ period ++ ", " ++ interval
    ++ " intervals)" ++ String "010" ""
    ++ "Currency: " ++ currency ++ String "010" ""
    ++ (if truthyNum firstTradeDate && truthyNum regularMarketTime
        then "Trading Period: "
               ++ toLocaleDateString host (nmul (toNumber firstTradeDate) (ofZ 1000))
               ++ " to "
               ++ toLocaleDateString host (nmul (toNumber regularMarketTime) (ofZ 1000))
               ++ blankLine
        else String "010" "").

Definition tableHeader : string :=
  "Date       | Open     | High     | Low      | Close    | Volume"
    ++ String "010" ""
    ++ "-----------|----------|----------|----------|----------|------------"
    ++ String "010" "".

(** [formatStockHistory]: nothing in its [try] block can throw on a
    payload of this shape, so the [catch] branch has no counterpart.  The
    local [adjclose], which the function never reads, is left out. *)
Definition formatStockHistory (historyData : ChartResult.t)
    (symbol period interval : string) : string :=
  let meta := ChartResult.meta historyData in
  let timestamps :=
    match ChartResult.timestamp historyData with
    | Some l => l
    | None => []
    end in
  let quotes := ChartResult.quote0 historyData in
  historyHeader meta symbol period interval
    ++ tableHeader
    ++ String.concat "" (historyRows timestamps quotes)
    ++ historySummary timestamps quotes.

Definition apiError (response : Response.t) : string :=
  "API error: " ++ showZ (Response.status response) ++ " "
    ++ Response.statusText response.

Definition noHistory (symbol : string) : string :=
  "No historical data found for symbol: " ++ symbol.

(** [period] and [interval] are the arguments after their defaults
    ("1mo", "1d") have been applied to missing ones. *)
Definition fetchStockHistory (now : Z) (symbol period interval : string)
  : M string :=
  checkRateLimit now ;;
  rethrow "Failed to fetch stock history: "
    (if negb (includes validPeriods period) then throw (invalidPeriod period)
     else if negb (includes validIntervals interval)
     then throw (invalidInterval interval)
     else
       let period2 := now / 1000 in
       let period1 := period1Of now period2 period in
       response <- fetchWithRetry (chartUrl symbol period1 period2 interval) 3 ;;
       if negb (Response.ok response) then throw (apiError response)
       else
         result <- firstResult response ;;
         match result with
         | None => ret (noHistory symbol)
         | Some result => ret (formatStockHistory result symbol period interval)
         end).

End Pipelines.

(* ===================================================================== *)
(** ** Tool arguments, type guards and the request handler
       (index.ts, lines 177-207 and 542-604) *)
(* ===================================================================== *)

(** A decoded JSON value: what [request.params.arguments] and its
    properties can be. *)
#[local] Unset Elimination Schemes.
Inductive json : Type :=
| JNull
| JBool (b : bool)
| JNumber (x : number)
| JString (s : string)
| JArray (items : list json)
| JObject (properties : list (string * json)).
#[local] Set Elimination Schemes.

(** The own property [key] of an object, first entry first. *)
Fixpoint lookup (key : string) (properties : list (string * json))
  : option json :=
  match properties with
  | [] => None
  | (k, v) :: rest => if String.eqb key k then Some v else lookup key rest
  end.

(** [args[key]] for the keys the handler uses ("symbol", "period",
    "interval", "indices"), none of which an array or a primitive has:
    [None] is [undefined]. *)
Definition getProp (key : string) (args : json) : option json :=
  match args with
  | JObject properties => lookup key properties
  | _ => None
  end.

(** [key in args], for an object or an array and the same keys. *)
Definition hasProp (key : string) (args : json) : bool :=
  match getProp key args with
  | Some _ => true
  | None => false
  end.

(** [typeof v === "object"]: objects, arrays and [null]. *)
Definition typeofObject (v : json) : bool :=
  match v with
  | JNull | JArray _ | JObject _ => true
  | _ => false
  end.

Definition isNull (v : json) : bool :=
  match v with
  | JNull => true
  | _ => false
  end.

(** [typeof v === "string"] for a property that may be [undefined]. *)
Definition typeofString (v : option json) : bool :=
  match v with
  | Some (JString _) => true
  | _ => false
  end.

(** [Array.isArray(v)] *)
Definition isArray (v : option json) : bool :=
  match v with
  | Some (JArray _) => true
  | _ => false
  end.

Definition isStockQuoteArgs (args : json) : bool :=
  typeofObject args && negb (isNull args) && hasProp "symbol" args
  && typeofString (getProp "symbol" args).

Definition isMarketDataArgs (args : json) : bool :=
  typeofObject args && negb (isNull args)
  && (negb (hasProp "indices" args) || isArray (getProp "indices" args)).

Definition isStockHistoryArgs (args : json) : bool :=
  typeofObject args && negb (isNull args) && hasProp "symbol" args
  && typeofString (getProp "symbol" args).

(** [args] as the condition of [if (!args)]; [None] is [undefined]. *)
Definition truthyArgs (args : option json) : bool :=
  match args with
  | None => false
  | Some JNull => false
  | Some (JBool b) => b
  | Some (JNumber x) => ntruthy x
  | Some (JString s) => negb (String.eqb s "")
  | Some (JArray _) | Some (JObject _) => true
  end.

(** What the handler returns: the text of the single content item and
    the [isError] flag. *)
Record ToolResult : Type := mkResult {
  text : string;
  isError : bool
}.

Section Handler.

Variable host : Host.
Variable net : Network.

(** [Number.prototype.toString()] *)
Variable numberToString : number -> string.

(** The message of the [TypeError] of a conversion to a string that finds
    no primitive value (V8). *)
Definition notPrimitive : string := "Cannot convert object to primitive value".

(** [String(v)], as template literals and [encodeURIComponent] apply it;
    [None] when the conversion throws.  An object is printed by the
    [toString] it inherits, unless it has a property of this name of its
    own: a JSON value is not callable, and the inherited [valueOf]
    returns the object, so no primitive value is found.  An array joins
    the strings of its elements, [null] as the empty string. *)
Fixpoint jsToString (v : json) : option string :=
  match v with
  | JNull => Some "null"
  | JBool true => Some "true"
  | JBool false => Some "false"
  | JNumber x => Some (numberToString x)
  | JString s => Some s
  | JArray items =>
      option_map (join ",")
        ((fix elements (l : list json) : option (list string) :=
            match l with
            | [] => Some []
            | item :: rest =>
                match match item with
                      | JNull => Some ""
                      | _ => jsToString item
                      end, elements rest with
                | Some shown, Some others => Some (shown :: others)
                | _, _ => None
                end
            end) items)
  | JObject properties =>
      match lookup "toString" properties with
      | Some _ => None
      | None => Some "[object Object]"
      end
  end.

(** A value inside a template literal of a pipeline's [try] block. *)
Definition templateValue (v : json) : M string :=
  match jsToString v with
  | Some shown => ret shown
  | None => throw notPrimitive
  end.

(** [fetchStockHistory(symbol, period, interval)] when [period] and
    [interval] are any JSON values, as the handler can pass them:
    [includes] compares with [===], so a value that is not a string is
    never found in either list, and the error message converts it to a
    string. *)
Definition fetchStockHistoryArgs (now : Z) (symbol : string)
    (period interval : json) : M string :=
  match period, interval with
  | JString p, JString i => fetchStockHistory host net now symbol p i
  | JString p, _ =>
      checkRateLimit now ;;
      rethrow "Failed to fetch stock history: "
        (if negb (includes validPeriods p) then throw (invalidPeriod p)
         else shown <- templateValue interval ;; throw (invalidInterval shown))
  | _, _ =>
      checkRateLimit now ;;
      rethrow "Failed to fetch stock history: "
        (shown <- templateValue period ;; throw (invalidPeriod shown))
  end.

(** [const { key = fallback } = args] *)
Definition propOr (key : string) (fallback : json) (args : json) : json :=
  match getProp key args with
  | Some v => v
  | None => fallback
  end.

(** [args.symbol], a string past the guards of the quote and the history
    tool. *)
Definition symbolOf (args : json) : string :=
  match getProp "symbol" args with
  | Some (JString symbol) => symbol
  | _ => ""
  end.

(** [args.indices], an array past the guard of the market-data tool. *)
Definition elementsOf (indices : json) : list json :=
  match indices with
  | JArray items => items
  | _ => []
  end.

(** The elements of [indices] as strings, up to the first one whose
    conversion throws, and whether there is none. *)
Fixpoint indexSymbols (items : list json) : list string * bool :=
  match items with
  | [] => ([], true)
  | item :: rest =>
      match jsToString item with
      | Some indexSymbol =>
          let (symbols, complete) := indexSymbols rest in
          (indexSymbol :: symbols, complete)
      | None => ([], false)
      end
  end.

(** [fetchMarketData(indices)] when the elements of [indices] are any
    JSON values, as the handler can pass them.  Every use of an element
    converts it to a string.  When the conversion throws, it does so in
    the URL template of the inner [try] and again in the log message of
    the inner [catch], which ends the loop and reaches the outer
    [catch]. *)
Definition fetchMarketDataArgs (now : Z) (items : list json) : M string :=
  let (symbols, complete) := indexSymbols items in
  if complete then fetchMarketData host net now symbols
  else
    checkRateLimit now ;;
    rethrow "Failed to fetch market data: "
      (let now' := now / 1000 in
       let oneMinuteAgo := now' - 60 in
       indexLoop net oneMinuteAgo now' symbols [] ;;
       throw notPrimitive).

(** The handler of [CallToolRequestSchema]: [name] and [args] are
    [request.params.name] and [request.params.arguments]. *)
Definition callTool (now : Z) (name : string) (args : option json)
  : M ToolResult :=
  tryCatch
    (match args with
     | None => throw "No arguments provided"
     | Some a =>
         if negb (truthyArgs args) then throw "No arguments provided"
         else if String.eqb name "yahoo_stock_quote" then
           if negb (isStockQuoteArgs a)
           then throw "Invalid arguments for yahoo_stock_quote"
           else
             results <- fetchStockQuote host net now (symbolOf a) ;;
             ret {| text := results; isError := false |}
         else if String.eqb name "yahoo_market_data" then
           if negb (isMarketDataArgs a)
           then throw "Invalid arguments for yahoo_market_data"
           else
             results <- match getProp "indices" a with
                        | Some indices =>
                            fetchMarketDataArgs now (elementsOf indices)
                        | None => fetchMarketData host net now defaultIndices
                        end ;;
             ret {| text := results; isError := false |}
         else if String.eqb name "yahoo_stock_history" then
           if negb (isStockHistoryArgs a)
           then throw "Invalid arguments for yahoo_stock_history"
           else
             results <- fetchStockHistoryArgs now (symbolOf a)
                          (propOr "period" (JString "1mo") a)
                          (propOr "interval" (JString "1d") a) ;;
             ret {| text := results; isError := false |}
         else ret {| text := "Unknown tool: " ++ name; isError := true |}
     end)
    (fun e => ret {| text := "Error: " ++ e; isError := true |}).

End Handler.

(* ===================================================================== *)
(** ** Vocabulary of the statements *)
(* ===================================================================== *)

(** The world of a freshly loaded module at time [t0]. *)
Definition freshWorld (t0 : Z) : World :=
  {| counts := RateLimiter.initial t0; fetched := []; waits := [] |}.

(** An outcome of [fetch] after which [fetchWithRetry] tries again. *)
Definition retryable (o : FetchOutcome) : bool :=
  match o with
  | Rejected _ => true
  | Fulfilled r => Response.status r =? 429
  end.

(** Starting in world [w], the fetches of [url] by one call of
    [fetchWithRetry] (3 attempts) end with attempt [k], which is answered
    with [response]; the attempts before it are rejected or answered 429. *)
Definition settlesWith (net : Network) (url : string) (w : World) (k : nat)
    (response : Response.t) : Prop :=
  (k < 3)%nat
  /\ (forall i, (i < k)%nat ->
        retryable (net (List.length (fetched w) + i)%nat url) = true)
  /\ net (List.length (fetched w) + k)%nat url = Fulfilled response.

(** The message of the last rejection among [outs], if any, else [seed]. *)
Definition lastRejection (seed : option string) (outs : list FetchOutcome)
  : option string :=
  fold_left (fun acc o =>
               match o with
               | Rejected e => Some e
               | Fulfilled _ => acc
               end) outs seed.

(** A numeric property that is missing or [null]. *)
Definition absent (v : jsnum) : Prop := v = NUndef \/ v = NNull.

(** A batch of per-index fetches, one after the other: [Batch ... indices
    w records w'] says that starting in world [w] the indices that
    yielded a record yielded [records], in this order, and left [w']. *)
Inductive Batch (net : Network) (period1 period2 : Z)
  : list string -> World -> list IndexRecord.t -> World -> Prop :=
| Batch_done : forall w, Batch net period1 period2 [] w [] w
| Batch_success : forall indexSymbol rest w r w1 records w2,
    tryIndex net period1 period2 indexSymbol w = (Returned (Some r), w1) ->
    Batch net period1 period2 rest w1 records w2 ->
    Batch net period1 period2 (indexSymbol :: rest) w (r :: records) w2
| Batch_empty : forall indexSymbol rest w w1 records w2,
    tryIndex net period1 period2 indexSymbol w = (Returned None, w1) ->
    Batch net period1 period2 rest w1 records w2 ->
    Batch net period1 period2 (indexSymbol :: rest) w records w2
| Batch_failure : forall indexSymbol rest w e w1 records w2,
    tryIndex net period1 period2 indexSymbol w = (Thrown e, w1) ->
    Batch net period1 period2 rest w1 records w2 ->
    Batch net period1 period2 (indexSymbol :: rest) w records w2.

(** The world once [checkRateLimit()] has run at time [now]. *)
Definition afterCheck (now : Z) (w : World) : World :=
  {| counts := snd (RateLimiter.checkRateLimit now (counts w));
     fetched := fetched w;
     waits := waits w |}.

(** *** Concrete data for the examples *)

(** 500 calls, one every four seconds from time 4000 on. *)
Definition busyDay : list Z :=
  map (fun k => Z.of_nat k * 4000) (seq 1 500).

(** 20 calls within the first second. *)
Definition burst : list Z := map (fun k => Z.of_nat k * 10) (seq 1 20).

(** The world of a module loaded at time 0 after the calls of [burst]. *)
Definition limitedWorld : World :=
  {| counts := snd (RateLimiter.runCalls burst (RateLimiter.initial 0));
     fetched := []; waits := [] |}.

Definition noMeta : Meta.t :=
  Meta.mk SUndef SUndef SUndef SUndef NUndef NUndef NUndef NUndef NUndef
          NUndef NUndef NUndef NUndef NUndef None.

(** A result entry whose [meta] block is the empty object. *)
Definition bareResult : ChartResult.t :=
  {| ChartResult.meta := Some noMeta;
     ChartResult.timestamp := None;
     ChartResult.quote0 := None |}.

(** The number a JSON literal of value [n / d] decodes to. *)
Definition num (n d : Z) : jsnum := NVal (ndiv (ofZ n) (ofZ d)).

(** The quote of the README's example output. *)
Definition appleMeta : Meta.t :=
  {| Meta.symbol := SVal "AAPL";
     Meta.shortName := SVal "Apple Inc.";
     Meta.longName := SVal "Apple Inc.";
     Meta.currency := SVal "USD";
     Meta.regularMarketPrice := num 19634 100;
     Meta.chartPreviousClose := num 19467 100;
     Meta.previousClose := num 19467 100;
     Meta.regularMarketDayLow := num 19414 100;
     Meta.regularMarketDayHigh := num 19721 100;
     Meta.fiftyTwoWeekLow := num 12417 100;
     Meta.fiftyTwoWeekHigh := num 19721 100;
     Meta.regularMarketVolume := num 54364985 1;
     Meta.firstTradeDate := num 345479400 1;
     Meta.regularMarketTime := num 1695672000 1;
     Meta.instrumentInfo := None |}.

Definition appleSeries : QuoteSeries.t :=
  {| QuoteSeries.open := Some [num 19501 100];
     QuoteSeries.high := Some [num 19721 100];
     QuoteSeries.low := Some [num 19414 100];
     QuoteSeries.close := Some [num 19634 100];
     QuoteSeries.volume := Some [num 54364985 1] |}.

Definition appleResult : ChartResult.t :=
  {| ChartResult.meta := Some appleMeta;
     ChartResult.timestamp := Some [num 1695672000 1];
     ChartResult.quote0 := Some appleSeries |}.

Definition okResponse (result : option ChartResult.t) : Response.t :=
  {| Response.status := 200; Response.statusText := "OK";
     Response.body := JsonResult result |}.

Definition notFound : Response.t :=
  {| Response.status := 404; Response.statusText := "Not Found";
     Response.body := JsonResult None |}.

Definition tooMany : Response.t :=
  {| Response.status := 429; Response.statusText := "Too Many Requests";
     Response.body := JsonResult None |}.

(** Networks: every fetch answers the same; the first two fetches are
    rejected; the fetch for one index is answered 404. *)
Definition always (r : Response.t) : Network := fun _ _ => Fulfilled r.

Definition failsTwice (r : Response.t) : Network :=
  fun k _ => if (k <? 2)%nat then Rejected "ECONNRESET" else Fulfilled r.


(** A two-point series whose last close is [null]. *)
Definition gapSeries : ChartResult.t :=
  {| ChartResult.meta := None;
     ChartResult.timestamp := Some [num 1695585600 1; num 1695672000 1];
     ChartResult.quote0 :=
       Some {| QuoteSeries.open := None; QuoteSeries.high := None;
               QuoteSeries.low := None;
               QuoteSeries.close := Some [num 150 1; NNull];
               QuoteSeries.volume := None |} |}.

(** *** Vocabulary of the further properties *)

(** Both counters of [requestCount] within their limits. *)
Definition withinLimits (rc : RateLimiter.requestCount) : Prop :=
  0 <= RateLimiter.minute rc <= RateLimiter.perMinute
  /\ 0 <= RateLimiter.day rc <= RateLimiter.perDay.

(** How many calls of a run returned. *)
Definition successes (results : list bool) : nat :=
  List.length (filter (fun b => b) results).

(** A string whose last character is not white space. *)
Definition endsVisible (s : string) : Prop :=
  exists s' c, s = s' ++ String c "" /\ isSpace c = false.

(** The sum of a list of delays. *)
Definition totalWait (delays : list Z) : Z := fold_right Z.add 0 delays.

(** A network on which every fetch is rejected. *)
Definition down : Network := fun _ _ => Rejected "ECONNRESET".

(** An ok response whose body is not JSON. *)
Definition garbled : Response.t :=
  {| Response.status := 200; Response.statusText := "OK";
     Response.body := JsonThrows "Unexpected token < in JSON at position 0" |}.

(** An index whose price equals its previous close. *)
Definition flatMeta : Meta.t :=
  {| Meta.symbol := SVal "^GSPC";
     Meta.shortName := SVal "S&P 500";
     Meta.longName := SUndef;
     Meta.currency := SVal "USD";
     Meta.regularMarketPrice := num 5000 1;
     Meta.chartPreviousClose := num 5000 1;
     Meta.previousClose := num 5000 1;
     Meta.regularMarketDayLow := num 4990 1;
     Meta.regularMarketDayHigh := num 5010 1;
     Meta.fiftyTwoWeekLow := num 4000 1;
     Meta.fiftyTwoWeekHigh := num 5100 1;
     Meta.regularMarketVolume := NUndef;
     Meta.firstTradeDate := NUndef;
     Meta.regularMarketTime := NUndef;
     Meta.instrumentInfo := None |}.

(** Arguments of tool calls. *)
Definition appleArgs : json := JObject [("symbol", JString "AAPL")].

Definition weekArgs : json :=
  JObject [("symbol", JString "AAPL"); ("period", JArray [JString "1d"])].

(** A period that is an object with a [toString] property of its own. *)
Definition opaquePeriod : json := JObject [("toString", JNumber (ofZ 1))].

Definition opaqueArgs : json :=
  JObject [("symbol", JString "AAPL"); ("period", opaquePeriod)].

Definition opaqueIndices : json :=
  JObject [("indices", JArray [JString "^GSPC"; opaquePeriod; JString "^DJI"])].

(* ===================================================================== *)
(** ** The rate limiter *)
(* ===================================================================== *)

Section RateLimiterFacts.

Import RateLimiter.

(** Inside both windows nothing is reset. *)
Lemma resetWindows_inside now rc :
  now - lastMinuteReset rc <= 60000 ->
  now - lastDayReset rc <= 86400000 ->
  resetWindows now rc = rc.
Proof.
  intros Hm Hd. unfold resetWindows, resetMinute.
  destruct (Z.ltb_spec 60000 (now - lastMinuteReset rc)); [lia|].
  unfold resetDay.
  destruct (Z.ltb_spec 86400000 (now - lastDayReset rc)); [lia|].
  reflexivity.
Qed.

(** A call inside both windows with room in both counters increments
    both and returns. *)
Lemma checkRateLimit_inside_ok now rc :
  now - lastMinuteReset rc <= 60000 ->
  now - lastDayReset rc <= 86400000 ->
  minute rc < perMinute -> day rc < perDay ->
  RateLimiter.checkRateLimit now rc = (inr tt, increment rc).
Proof.
  intros Hm Hd Hlm Hld. unfold RateLimiter.checkRateLimit.
  rewrite resetWindows_inside by assumption.
  destruct (Z.leb_spec perMinute (minute rc)); [lia|].
  destruct (Z.leb_spec perDay (day rc)); [lia|].
  reflexivity.
Qed.






End RateLimiterFacts.

(* ===================================================================== *)
(** ** The retrying fetch *)
(* ===================================================================== *)

Section FetchFacts.

Variable net : Network.

Lemma backoff_values : backoff 0 = 1000 /\ backoff 1 = 2000 /\ backoff 2 = 4000.
Proof. repeat split; reflexivity. Qed.

(** The loop returns the first response that is not a 429, after one
    wait per earlier attempt. *)
Lemma retryLoop_returns url :
  forall remaining retries lastError w k response,
    (k < remaining)%nat ->
    (forall i, (i < k)%nat ->
       retryable (net (List.length (fetched w) + i)%nat url) = true) ->
    net (List.length (fetched w) + k)%nat url = Fulfilled response ->
    Response.status response <> 429 ->
    retryLoop net remaining retries lastError url w =
      (Returned response,
       {| counts := counts w;
          fetched := fetched w ++ repeat url (S k);
          waits := waits w ++ map backoff (seq retries k) |}).
Proof.
  induction remaining as [|remaining IH];
    intros retries lastError w k response Hk Hretry Hresp Hstatus; [lia|].
  cbn [retryLoop]. unfold bind at 1. cbn [doFetch].
  destruct k as [|k].
  - rewrite Nat.add_0_r in Hresp. rewrite Hresp.
    apply Z.eqb_neq in Hstatus. rewrite Hstatus.
    cbn. rewrite app_nil_r. reflexivity.
  - pose proof (Hretry 0%nat (Nat.lt_0_succ k)) as H0.
    rewrite Nat.add_0_r in H0.
    set (w1 := {| counts := counts w; fetched := fetched w ++ [url];
                  waits := waits w ++ [backoff retries] |}).
    assert (Hnext : retryLoop net remaining (S retries)
                      (match net (List.length (fetched w)) url with
                       | Rejected e => Some e
                       | Fulfilled _ => lastError
                       end) url w1 =
                    (Returned response,
                     {| counts := counts w;
                        fetched := fetched w ++ repeat url (S (S k));
                        waits := waits w ++ map backoff (seq retries (S k)) |})).
    { rewrite (IH _ _ w1 k response).
      - subst w1. cbn [counts fetched waits].
        rewrite <- !app_assoc. reflexivity.
      - lia.
      - intros i Hi. subst w1. cbn [fetched].
        rewrite length_app. cbn [List.length].
        replace (List.length (fetched w) + 1 + i)%nat
          with (List.length (fetched w) + S i)%nat by lia.
        apply Hretry. lia.
      - subst w1. cbn [fetched]. rewrite length_app. cbn [List.length].
        replace (List.length (fetched w) + 1 + k)%nat
          with (List.length (fetched w) + S k)%nat by lia.
        exact Hresp.
      - exact Hstatus. }
    destruct (net (List.length (fetched w)) url) as [e|r].
    + exact Hnext.
    + cbn [retryable] in H0. rewrite H0. exact Hnext.
Qed.

(** When every attempt is rejected or answered 429, the loop throws
    after [remaining] fetches and as many waits. *)
Lemma retryLoop_exhausts url :
  forall remaining retries lastError w,
    (forall i, (i < remaining)%nat ->
       retryable (net (List.length (fetched w) + i)%nat url) = true) ->
    retryLoop net remaining retries lastError url w =
      (Thrown
         (match lastRejection lastError
                  (map (fun i => net (List.length (fetched w) + i)%nat url)
                       (seq 0 remaining)) with
          | Some e => e
          | None => "Maximum retries exceeded"
          end),
       {| counts := counts w;
          fetched := fetched w ++ repeat url remaining;
          waits := waits w ++ map backoff (seq retries remaining) |}).
Proof.
  induction remaining as [|remaining IH]; intros retries lastError w Hretry.
  - cbn. rewrite !app_nil_r. destruct w; reflexivity.
  - cbn [retryLoop]. unfold bind at 1. cbn [doFetch].
    pose proof (Hretry 0%nat (Nat.lt_0_succ remaining)) as H0.
    rewrite Nat.add_0_r in H0.
    set (w1 := {| counts := counts w; fetched := fetched w ++ [url];
                  waits := waits w ++ [backoff retries] |}).
    assert (Hnext : forall seed,
               retryLoop net remaining (S retries) seed url w1 =
               (Thrown
                  (match lastRejection seed
                           (map (fun i => net (List.length (fetched w) + i)%nat url)
                                (seq 1 remaining)) with
                   | Some e => e
                   | None => "Maximum retries exceeded"
                   end),
                {| counts := counts w;
                   fetched := fetched w ++ repeat url (S remaining);
                   waits := waits w ++ map backoff (seq retries (S remaining)) |})).
    { intros seed. rewrite (IH (S retries) seed w1).
      - assert (Hmap :
                  map (fun i => net (List.length (fetched w1) + i)%nat url)
                      (seq 0 remaining)
                  = map (fun i => net (List.length (fetched w) + i)%nat url)
                      (seq 1 remaining)).
        { rewrite <- seq_shift, map_map. apply map_ext. intros i.
          subst w1. cbn [fetched]. rewrite length_app. cbn [List.length].
          f_equal. lia. }
        rewrite Hmap. subst w1. cbn [counts fetched waits].
        rewrite <- !app_assoc. reflexivity.
      - intros i Hi. subst w1. cbn [fetched].
        rewrite length_app. cbn [List.length].
        replace (List.length (fetched w) + 1 + i)%nat
          with (List.length (fetched w) + S i)%nat by lia.
        apply Hretry. lia. }
    cbn [seq map lastRejection fold_left]. rewrite Nat.add_0_r.
    destruct (net (List.length (fetched w)) url) as [e|r].
    + apply Hnext.
    + cbn [retryable] in H0. rewrite H0. apply Hnext.
Qed.

(** [fetchWithRetry] never touches [requestCount]. *)
Lemma retryLoop_counts url :
  forall remaining retries lastError w,
    counts (snd (retryLoop net remaining retries lastError url w)) = counts w.
Proof.
  induction remaining as [|remaining IH]; intros retries lastError w.
  - reflexivity.
  - cbn [retryLoop]. unfold bind at 1. cbn [doFetch].
    destruct (net (List.length (fetched w)) url) as [e|r].
    + unfold bind, sleep. rewrite IH. reflexivity.
    + destruct (Response.status r =? 429).
      * unfold bind, sleep. rewrite IH. reflexivity.
      * reflexivity.
Qed.

(** It performs at least one and at most [maxRetries] fetches, of [url]
    only. *)
Lemma retryLoop_fetches url :
  forall remaining retries lastError w,
    exists n, (n <= remaining)%nat /\ (remaining = 0%nat \/ 1 <= n)%nat
      /\ fetched (snd (retryLoop net remaining retries lastError url w))
         = (fetched w ++ repeat url n)%list.
Proof.
  induction remaining as [|remaining IH]; intros retries lastError w.
  - exists 0%nat. cbn. rewrite app_nil_r. repeat split; auto.
  - cbn [retryLoop]. unfold bind at 1. cbn [doFetch].
    assert (Hrec : forall seed, exists n,
               (n <= S remaining)%nat /\ (S remaining = 0%nat \/ 1 <= n)%nat /\
               fetched (snd (retryLoop net remaining (S retries) seed url
                  {| counts := counts w; fetched := fetched w ++ [url];
                     waits := waits w ++ [backoff retries] |}))
               = (fetched w ++ repeat url n)%list).
    { intros seed.
      destruct (IH (S retries) seed
                  {| counts := counts w; fetched := fetched w ++ [url];
                     waits := waits w ++ [backoff retries] |})
        as (n & Hn & _ & Hf).
      exists (S n). repeat split; [lia | right; lia |].
      rewrite Hf. cbn [fetched]. rewrite <- app_assoc. reflexivity. }
    destruct (net (List.length (fetched w)) url) as [e|r].
    + apply Hrec.
    + destruct (Response.status r =? 429).
      * apply Hrec.
      * exists 1%nat. cbn. repeat split; [lia | right; lia].
Qed.

(** C2.  [fetchWithRetry(url, options, maxRetries)]: let [settle i] be
    what the i-th fetch of the call settles with.  If the attempts before
    attempt [k < maxRetries] are all rejected or answered 429 and attempt
    [k] is answered with any other status, that response is returned,
    after [k + 1] fetches and the [k] waits of 2^0, ..., 2^(k-1) seconds.
    If all [maxRetries] attempts are rejected or answered 429, the call
    throws after [maxRetries] fetches and waits: the last rejection's
    error, or "Maximum retries exceeded" when no attempt was rejected.
    In particular, rejected twice and then answered, with 3 retries: the
    response is returned after waits of 1 s and 2 s; answered 429 every
    time: the call throws "Maximum retries exceeded" after 3 fetches. *)
Theorem fetchWithRetry_retries (url : string) (maxRetries : nat) (w : World) :
  let settle := fun i => net (List.length (fetched w) + i)%nat url in
  let after := fun n k =>
    {| counts := counts w;
       fetched := fetched w ++ repeat url n;
       waits := waits w ++ map backoff (seq 0 k) |} in
  (forall k response,
      (k < maxRetries)%nat ->
      (forall i, (i < k)%nat -> retryable (settle i) = true) ->
      settle k = Fulfilled response ->
      Response.status response <> 429 ->
      fetchWithRetry net url maxRetries w = (Returned response, after (S k) k))
  /\ ((forall i, (i < maxRetries)%nat -> retryable (settle i) = true) ->
      fetchWithRetry net url maxRetries w =
        (Thrown (match lastRejection None (map settle (seq 0 maxRetries)) with
                 | Some e => e
                 | None => "Maximum retries exceeded"
                 end),
         after maxRetries maxRetries))
  /\ (forall attempt, backoff attempt = 2 ^ Z.of_nat attempt * 1000)
  /\ (forall e1 e2 response,
        settle 0%nat = Rejected e1 ->
        settle 1%nat = Rejected e2 ->
        settle 2%nat = Fulfilled response ->
        Response.status response <> 429 ->
        fetchWithRetry net url 3 w =
          (Returned response,
           {| counts := counts w;
              fetched := fetched w ++ [url; url; url];
              waits := waits w ++ [1000; 2000] |}))
  /\ ((forall i, exists r,
          settle i = Fulfilled r /\ Response.status r = 429) ->
      fetchWithRetry net url 3 w =
        (Thrown "Maximum retries exceeded",
         {| counts := counts w;
            fetched := fetched w ++ [url; url; url];
            waits := waits w ++ [1000; 2000; 4000] |})).
Proof.
  intros settle after. unfold fetchWithRetry.
  split; [|split; [|split; [|split]]].
  - intros k response Hk Hretry Hresp Hstatus.
    apply retryLoop_returns; assumption.
  - intros Hretry. apply retryLoop_exhausts. exact Hretry.
  - reflexivity.
  - intros e1 e2 response H0 H1 H2 Hstatus.
    rewrite (retryLoop_returns url 3 0 None w 2 response).
    + reflexivity.
    + lia.
    + intros i Hi. destruct i as [|[|i]]; [| |lia].
      * fold (settle 0%nat). rewrite H0. reflexivity.
      * fold (settle 1%nat). rewrite H1. reflexivity.
    + exact H2.
    + exact Hstatus.
  - intros H429. rewrite retryLoop_exhausts.
    + cbn [seq map].
      destruct (H429 0%nat) as (r0 & E0 & _).
      destruct (H429 1%nat) as (r1 & E1 & _).
      destruct (H429 2%nat) as (r2 & E2 & _).
      unfold settle in E0, E1, E2. rewrite E0, E1, E2. reflexivity.
    + intros i _. destruct (H429 i) as (r & E & Hs).
      unfold settle in E. rewrite E. cbn. rewrite Hs. reflexivity.
Qed.

End FetchFacts.

(** The theorem on a network that rejects the first two fetches and
    answers the third: the answer comes back after waits of 1 s and 2 s. *)
Lemma fetchWithRetry_retries_witness :
  fetchWithRetry (failsTwice notFound) "u" 3 (freshWorld 0) =
    (Returned notFound,
     {| counts := RateLimiter.initial 0;
        fetched := ["u"; "u"; "u"]; waits := [1000; 2000] |}).
Proof.
  destruct (fetchWithRetry_retries (failsTwice notFound) "u" 3 (freshWorld 0))
    as (_ & _ & _ & H & _).
  apply (H "ECONNRESET" "ECONNRESET" notFound); try reflexivity.
  cbn. discriminate.
Defined.

(* ===================================================================== *)
(** ** The history table and its summary line *)
(* ===================================================================== *)

Section HistoryFacts.

Local Open Scope nat_scope.

(** With enough fuel the row loop visits [i], [i + step], ... below
    [length]. *)
Lemma rowIndicesFrom_stride step length :
  1 <= step ->
  forall fuel i,
    length <= i + fuel ->
    rowIndicesFrom fuel i length step =
      map (fun j => i + j * step) (seq 0 ((length - i + step - 1) / step)).
Proof.
  intros Hstep. induction fuel as [|fuel IH]; intros i Hfuel.
  - cbn [rowIndicesFrom].
    replace (length - i) with 0 by lia.
    rewrite Nat.div_small by lia. reflexivity.
  - cbn [rowIndicesFrom]. destruct (Nat.ltb_spec i length) as [Hlt|Hge].
    + rewrite IH by lia.
      assert (E : (length - i + step - 1) / step
                  = S ((length - (i + step) + step - 1) / step)).
      { destruct (Nat.le_gt_cases length (i + step)) as [Hle|Hgt].
        - replace (length - (i + step)) with 0 by lia.
          rewrite (Nat.div_small (0 + step - 1)) by lia.
          symmetry. apply Nat.div_unique with (r := length - i - 1); lia.
        - replace (length - i + step - 1)
            with (length - (i + step) + step - 1 + 1 * step) by lia.
          rewrite Nat.div_add by lia. lia. }
      rewrite E. cbn [seq map]. f_equal; [lia|].
      rewrite <- seq_shift, map_map. apply map_ext. intros j. lia.
    + replace (length - i) with 0 by lia.
      rewrite Nat.div_small by lia. reflexivity.
Qed.

Lemma stepOf_pos n : 1 <= stepOf n.
Proof. unfold stepOf. lia. Qed.

(** The rows are the points at the multiples of the step. *)
Lemma rowIndices_stride n :
  rowIndices n =
    map (fun j => j * stepOf n) (seq 0 ((n + stepOf n - 1) / stepOf n)).
Proof.
  unfold rowIndices.
  rewrite rowIndicesFrom_stride by (try apply stepOf_pos; lia).
  rewrite Nat.sub_0_r. reflexivity.
Qed.

Lemma rowIndices_length n :
  List.length (rowIndices n) = (n + stepOf n - 1) / stepOf n.
Proof. rewrite rowIndices_stride, length_map, length_seq. reflexivity. Qed.

(** No series gives more than 19 rows. *)
Lemma rowIndices_bound n : List.length (rowIndices n) <= 19.
Proof.
  rewrite rowIndices_length. unfold stepOf, maxPoints.
  destruct (Nat.lt_ge_cases n 10) as [Hlt|Hge].
  - rewrite (Nat.div_small n 10) by lia.
    replace (Nat.max 1 0) with 1 by reflexivity.
    rewrite Nat.div_1_r. lia.
  - pose proof (Nat.div_mod_eq n 10) as Hn.
    pose proof (Nat.mod_upper_bound n 10 ltac:(lia)) as Hr.
    assert (Hq : 1 <= n / 10).
    { apply Nat.div_le_lower_bound; lia. }
    rewrite Nat.max_r by lia.
    set (q := n / 10) in *. set (r := n mod 10) in *.
    apply Nat.lt_succ_r. apply Nat.Div0.div_lt_upper_bound.
    nia.
Qed.

(** C3 on the code.  A series of 19 points is rendered with step 1, as
    19 rows, and one of 21 points (a month of daily points) with step 2,
    as 11 rows: more than the 10 that [maxPoints] announces.  In general the
    rows are the points at indices 0, step, 2*step, ... below the length,
    with step = max(1, floor(length / 10)) and nothing computed from the
    points in between; their number is ceil(length / step), which never
    exceeds 19; a series of 100 points gives the 10 rows at stride 10. *)
Theorem historyRows_exceed_maxPoints :
  rowIndices 19 = seq 0 19
  /\ rowIndices 21 = [0; 2; 4; 6; 8; 10; 12; 14; 16; 18; 20]
  /\ (forall host quotes,
        List.length (historyRows host (repeat (NVal (ofZ 0)) 19) quotes) = 19)
  /\ (forall host timestamps quotes,
        historyRows host timestamps quotes =
          map (historyRow host timestamps quotes)
              (map (fun j => j * stepOf (List.length timestamps))
                   (seq 0 ((List.length timestamps
                            + stepOf (List.length timestamps) - 1)
                           / stepOf (List.length timestamps)))))
  /\ (forall n, stepOf n = Nat.max 1 (n / 10))
  /\ (forall host timestamps quotes,
        List.length (historyRows host timestamps quotes) <= 19)
  /\ rowIndices 100 = [0; 10; 20; 30; 40; 50; 60; 70; 80; 90].
Proof.
  split; [reflexivity|].
  split; [reflexivity|].
  split; [intros; unfold historyRows; rewrite length_map; reflexivity|].
  split; [intros; unfold historyRows; rewrite rowIndices_stride; reflexivity|].
  split; [reflexivity|].
  split; [|reflexivity].
  intros. unfold historyRows. rewrite length_map. apply rowIndices_bound.
Qed.

Local Close Scope nat_scope.

(** With numbers at both ends of the close column, the summary is built
    from those two, whatever lies between and whatever rows are shown. *)
Lemma historySummary_present timestamps quotes first last :
  timestamps <> [] ->
  column quotes QuoteSeries.close 0 = NVal first ->
  column quotes QuoteSeries.close (List.length timestamps - 1) = NVal last ->
  historySummary timestamps quotes =
    String "010" "" ++ "Price Change: $" ++ toFixed2 (nsub last first)
      ++ " (" ++ toFixed2 (nmul (ndiv (nsub last first) first) (ofZ 100))
      ++ "%)".
Proof.
  intros Hne Hfirst Hlast. unfold historySummary.
  assert (Hlen : (0 <? List.length timestamps)%nat = true)
    by (destruct timestamps; [congruence | reflexivity]).
  rewrite Hlen. cbv zeta. rewrite Hfirst, Hlast. reflexivity.
Qed.

(** No summary for an empty series, nor when an end of the close column
    reads [undefined]. *)
Lemma historySummary_undefined timestamps quotes :
  timestamps = []
  \/ column quotes QuoteSeries.close 0 = NUndef
  \/ column quotes QuoteSeries.close (List.length timestamps - 1) = NUndef ->
  historySummary timestamps quotes = "".
Proof.
  intros [->|H]; [reflexivity|]. unfold historySummary.
  destruct (0 <? List.length timestamps)%nat; [|reflexivity].
  destruct H as [-> | ->]; [reflexivity|].
  rewrite andb_false_r. reflexivity.
Qed.

(** C4 on the code.  In [gapSeries] the close at the last index is
    [null], the value the upstream puts where a point has no data.  The
    table shows that cell as N/A, yet a summary line is written, with
    [null] counted as 0: a change of -150.00 and -100.00%. *)
Theorem historySummary_counts_null_as_zero :
  historySummary [num 1695585600 1; num 1695672000 1]
                 (ChartResult.quote0 gapSeries)
    = String "010" "" ++ "Price Change: $-150.00 (-100.00%)"
  /\ formatStockHistory enUS_UTC gapSeries "AAPL" "1mo" "1d" =
"Historical data for AAPL (1mo, 1d intervals)
Currency: USD

Date       | Open     | High     | Low      | Close    | Volume
-----------|----------|----------|----------|----------|------------
9/24/2023   | $N/A      | $N/A      | $N/A      | $150.00   | N/A
9/25/2023   | $N/A      | $N/A      | $N/A      | $N/A      | N/A

Price Change: $-150.00 (-100.00%)".
Proof.
  split; vm_compute; reflexivity.
Qed.

End HistoryFacts.

(* ===================================================================== *)
(** ** The pipelines *)
(* ===================================================================== *)

Section PipelineFacts.

Variable host : Host.
Variable net : Network.

(** The rate-limit check as a step of a pipeline. *)
Lemma checkRateLimit_passes now w :
  fst (RateLimiter.checkRateLimit now (counts w)) = inr tt ->
  checkRateLimit now w = (Returned tt, afterCheck now w).
Proof. intros H. unfold checkRateLimit. rewrite H. reflexivity. Qed.

Lemma checkRateLimit_throws now w e :
  fst (RateLimiter.checkRateLimit now (counts w)) = inl e ->
  checkRateLimit now w = (Thrown e, afterCheck now w).
Proof. intros H. unfold checkRateLimit. rewrite H. reflexivity. Qed.

Lemma checkRateLimit_message now rc e :
  fst (RateLimiter.checkRateLimit now rc) = inl e ->
  e = RateLimiter.rateLimitMessage.
Proof.
  unfold RateLimiter.checkRateLimit.
  destruct (_ || _); cbn; congruence.
Qed.

Lemma checkRateLimit_passed_counts now rc :
  fst (RateLimiter.checkRateLimit now rc) = inr tt ->
  snd (RateLimiter.checkRateLimit now rc)
    = RateLimiter.increment (RateLimiter.resetWindows now rc).
Proof.
  unfold RateLimiter.checkRateLimit.
  destruct (_ || _); cbn; [discriminate | reflexivity].
Qed.

(** A response that is not a 429 comes back from the first fetch. *)
Lemma fetchWithRetry_first url w response :
  net (List.length (fetched w)) url = Fulfilled response ->
  Response.status response <> 429 ->
  fetchWithRetry net url 3 w =
    (Returned response,
     {| counts := counts w; fetched := fetched w ++ [url]; waits := waits w |}).
Proof.
  intros Hnet Hstatus. unfold fetchWithRetry.
  rewrite (retryLoop_returns net url 3 0 None w 0 response).
  - cbn. rewrite app_nil_r. reflexivity.
  - lia.
  - intros i Hi. lia.
  - rewrite Nat.add_0_r. exact Hnet.
  - exact Hstatus.
Qed.

Lemma fetchWithRetry_settles url w w0 k response :
  fetched w0 = fetched w ->
  settlesWith net url w k response ->
  Response.status response <> 429 ->
  fetchWithRetry net url 3 w0 =
    (Returned response,
     {| counts := counts w0;
        fetched := fetched w0 ++ repeat url (S k);
        waits := waits w0 ++ map backoff (seq 0 k) |}).
Proof.
  intros Hsame (Hk & Hretry & Hnet) Hstatus. unfold fetchWithRetry.
  apply retryLoop_returns; rewrite ?Hsame; assumption.
Qed.

Lemma fetchWithRetry_counts url maxRetries w :
  counts (snd (fetchWithRetry net url maxRetries w)) = counts w.
Proof. apply retryLoop_counts. Qed.


Lemma tryIndex_fetches period1 period2 indexSymbol w :
  exists n, (1 <= n <= 3)%nat
    /\ List.length (fetched (snd (tryIndex net period1 period2 indexSymbol w)))
       = (List.length (fetched w) + n)%nat.
Proof.
  unfold tryIndex, bind, fetchWithRetry.
  destruct (retryLoop_fetches net
              (chartUrl indexSymbol period1 period2 "1d") 3 0 None w)
    as (n & Hn & [H0|H1] & Hf); [discriminate|].
  exists n. split; [lia|].
  destruct (retryLoop net 3 0 None _ w) as [[r|e] w1]; cbn [snd] in *.
  - assert (Hlen : List.length (fetched w1) = (List.length (fetched w) + n)%nat)
      by (rewrite Hf, length_app, repeat_length; reflexivity).
    destruct (Response.ok r); [|exact Hlen].
    unfold firstResult.
    destruct (Response.body r) as [m|[res|]]; cbn; try exact Hlen.
    destruct (ChartResult.meta res); cbn; exact Hlen.
  - rewrite Hf, length_app, repeat_length. reflexivity.
Qed.

(** A pipeline that the rate limiter rejects throws at once: nothing is
    fetched and no timer is awaited.  So a call whose fetch settled, in
    whatever way, has passed the check. *)
Lemma limited_pipelines_fetch_nothing now w e :
  fst (RateLimiter.checkRateLimit now (counts w)) = inl e ->
  (forall symbol,
      fetchStockQuote host net now symbol w = (Thrown e, afterCheck now w))
  /\ (forall indices,
        fetchMarketData host net now indices w = (Thrown e, afterCheck now w))
  /\ (forall symbol period interval,
        fetchStockHistory host net now symbol period interval w
          = (Thrown e, afterCheck now w)).
Proof.
  intros Hlimit. repeat split; intros;
    [unfold fetchStockQuote | unfold fetchMarketData | unfold fetchStockHistory];
    unfold bind at 1; rewrite (checkRateLimit_throws now w e Hlimit);
    reflexivity.
Qed.

(** One turn of the loop: the inner [try] with its [catch]. *)
Lemma guarded_tryIndex period1 period2 indexSymbol w :
  tryCatch (tryIndex net period1 period2 indexSymbol) (fun _ => ret None) w =
    (Returned (match fst (tryIndex net period1 period2 indexSymbol w) with
               | Returned pushed => pushed
               | Thrown _ => None
               end),
     snd (tryIndex net period1 period2 indexSymbol w)).
Proof.
  unfold tryCatch.
  destruct (tryIndex net period1 period2 indexSymbol w) as [[pushed|e] w1];
    reflexivity.
Qed.

(** The loop never throws; what it returns is what it was given followed
    by the records of the batch, in order. *)
Lemma indexLoop_batch period1 period2 :
  forall indices indexResults w,
  exists records w',
    Batch net period1 period2 indices w records w'
    /\ indexLoop net period1 period2 indices indexResults w
       = (Returned (indexResults ++ records)%list, w').
Proof.
  induction indices as [|indexSymbol rest IH]; intros indexResults w.
  - exists [], w. split; [constructor|].
    cbn. rewrite app_nil_r. reflexivity.
  - cbn [indexLoop]. unfold bind at 1. rewrite guarded_tryIndex.
    destruct (tryIndex net period1 period2 indexSymbol w)
      as [[[r|]|e] w1] eqn:E; cbn [fst snd].
    + destruct (IH (indexResults ++ [r])%list w1) as (records & w' & HB & HL).
      exists (r :: records), w'. split.
      * eapply Batch_success; eassumption.
      * rewrite HL, <- app_assoc. reflexivity.
    + destruct (IH indexResults w1) as (records & w' & HB & HL).
      exists records, w'. split; [|exact HL].
      eapply Batch_empty; eassumption.
    + destruct (IH indexResults w1) as (records & w' & HB & HL).
      exists records, w'. split; [|exact HL].
      eapply Batch_failure; eassumption.
Qed.




(** [fetchMarketData] once the rate-limit check has passed. *)
Lemma fetchMarketData_passed now indices w :
  fst (RateLimiter.checkRateLimit now (counts w)) = inr tt ->
  exists records w',
    Batch net (now / 1000 - 60) (now / 1000) indices (afterCheck now w)
          records w'
    /\ fetchMarketData host net now indices w =
         (Returned (match records with
                    | [] => unableMarket
                    | _ :: _ => join blankLine (map (indexBlock host) records)
                    end), w').
Proof.
  intros Hpass. unfold fetchMarketData, bind at 1.
  rewrite (checkRateLimit_passes now w Hpass).
  destruct (indexLoop_batch (now / 1000 - 60) (now / 1000) indices []
                            (afterCheck now w))
    as (records & w' & HB & HL).
  exists records, w'. split; [exact HB|].
  unfold rethrow, tryCatch, bind. cbv zeta. rewrite HL. cbn [app].
  destruct records; reflexivity.
Qed.



(** The part of [fetchStockHistory] inside its [try] never touches
    [requestCount]. *)
Lemma fetchStockHistory_counts now symbol period interval w :
  counts (snd (fetchStockHistory host net now symbol period interval w))
    = snd (RateLimiter.checkRateLimit now (counts w)).
Proof.
  unfold fetchStockHistory, bind at 1, checkRateLimit.
  destruct (fst (RateLimiter.checkRateLimit now (counts w))) as [e|[]];
    [reflexivity|].
  unfold rethrow, tryCatch, throw.
  destruct (includes validPeriods period); [|reflexivity].
  destruct (includes validIntervals interval); [|reflexivity].
  cbn [negb]. unfold bind.
  match goal with
  | |- context [fetchWithRetry net ?u 3 ?w0] =>
      pose proof (fetchWithRetry_counts u 3 w0) as H;
      destruct (fetchWithRetry net u 3 w0) as [[r|e] w1]
  end; cbn [snd counts] in *; [|exact H].
  destruct (Response.ok r); cbn [negb]; [|exact H].
  unfold firstResult.
  destruct (Response.body r) as [m|[res|]]; cbn; exact H.
Qed.

(** C6, as amended.  Once the rate-limit check has passed: a period
    outside the 11 valid ones makes [fetchStockHistory] throw an error
    whose message names the period and lists the 11 valid ones; a valid
    period with an interval outside the 13 valid ones makes it throw an
    error that names the interval and lists the 13 valid ones; in both
    cases nothing is fetched and no timer is awaited.  When the check
    does not pass, the call throws "Rate limit exceeded" whatever its
    period and interval, again with nothing fetched. *)
Theorem fetchStockHistory_invalid_argument now symbol period interval w :
  (fst (RateLimiter.checkRateLimit now (counts w)) = inr tt ->
   (includes validPeriods period = false ->
    fetchStockHistory host net now symbol period interval w =
      (Thrown ("Failed to fetch stock history: Invalid period: " ++ period
               ++ ". Valid periods are: 1d, 5d, 1mo, 3mo, 6mo, 1y, 2y, 5y, 10y, ytd, max"),
       afterCheck now w))
   /\ (includes validPeriods period = true ->
       includes validIntervals interval = false ->
       fetchStockHistory host net now symbol period interval w =
         (Thrown ("Failed to fetch stock history: Invalid interval: " ++ interval
                  ++ ". Valid intervals are: 1m, 2m, 5m, 15m, 30m, 60m, 90m, 1h, 1d, 5d, 1wk, 1mo, 3mo"),
          afterCheck now w)))
  /\ (fst (RateLimiter.checkRateLimit now (counts w))
        = inl RateLimiter.rateLimitMessage ->
      fetchStockHistory host net now symbol period interval w =
        (Thrown RateLimiter.rateLimitMessage, afterCheck now w))
  /\ fetched (afterCheck now w) = fetched w
  /\ waits (afterCheck now w) = waits w
  /\ List.length validPeriods = 11%nat
  /\ List.length validIntervals = 13%nat.
Proof.
  split; [|split; [|repeat split]].
  - intros Hpass. split.
    + intros Hperiod. unfold fetchStockHistory, bind at 1.
      rewrite (checkRateLimit_passes now w Hpass).
      unfold rethrow, tryCatch, throw. rewrite Hperiod. reflexivity.
    + intros Hperiod Hinterval. unfold fetchStockHistory, bind at 1.
      rewrite (checkRateLimit_passes now w Hpass).
      unfold rethrow, tryCatch, throw. rewrite Hperiod, Hinterval.
      reflexivity.
  - intros Hlimit. unfold fetchStockHistory, bind at 1.
    rewrite (checkRateLimit_throws now w _ Hlimit). reflexivity.
Qed.

(** A check that passes never leaves [requestCount] as it found it. *)
Lemma increment_resetWindows_changes now rc :
  RateLimiter.increment (RateLimiter.resetWindows now rc) <> rc.
Proof.
  unfold RateLimiter.resetWindows, RateLimiter.resetMinute,
    RateLimiter.resetDay, RateLimiter.increment.
  destruct rc as [m d lm ld]. cbn.
  destruct (Z.ltb_spec 60000 (now - lm));
    cbn; destruct (Z.ltb_spec 86400000 (now - ld)); cbn;
    intros E; injection E; intros; lia.
Qed.

(** C10.  Every call of [fetchStockHistory] runs the rate-limit check
    first: [requestCount] at the end of the call is what the check left,
    whatever the arguments.  So a call that fails with the invalid-period
    or invalid-interval error has passed the check and has added one to
    the minute counter and to the day counter: [requestCount] is not what
    it was before the call. *)
Theorem fetchStockHistory_invalid_argument_counts
    now symbol period interval w :
  counts (snd (fetchStockHistory host net now symbol period interval w))
    = snd (RateLimiter.checkRateLimit now (counts w))
  /\ (fst (fetchStockHistory host net now symbol period interval w)
        = Thrown ("Failed to fetch stock history: " ++ invalidPeriod period)
      \/ fst (fetchStockHistory host net now symbol period interval w)
        = Thrown ("Failed to fetch stock history: " ++ invalidInterval interval) ->
      let after :=
        counts (snd (fetchStockHistory host net now symbol period interval w)) in
      let start := RateLimiter.resetWindows now (counts w) in
      RateLimiter.minute after = RateLimiter.minute start + 1
      /\ RateLimiter.day after = RateLimiter.day start + 1
      /\ after <> counts w
      /\ (now - RateLimiter.lastMinuteReset (counts w) <= 60000 ->
          now - RateLimiter.lastDayReset (counts w) <= 86400000 ->
          RateLimiter.minute after = RateLimiter.minute (counts w) + 1
          /\ RateLimiter.day after = RateLimiter.day (counts w) + 1)).
Proof.
  split; [apply fetchStockHistory_counts|].
  intros Hfail after start.
  assert (Hpass : fst (RateLimiter.checkRateLimit now (counts w)) = inr tt).
  { destruct (fst (RateLimiter.checkRateLimit now (counts w))) as [e|[]] eqn:E;
      [|reflexivity].
    exfalso.
    pose proof (checkRateLimit_message _ _ _ E) as ->.
    assert (Hthrown :
              fst (fetchStockHistory host net now symbol period interval w)
              = Thrown RateLimiter.rateLimitMessage).
    { unfold fetchStockHistory, bind at 1.
      rewrite (checkRateLimit_throws now w _ E). reflexivity. }
    rewrite Hthrown in Hfail.
    destruct Hfail as [H|H]; injection H as H; discriminate H. }
  assert (Hafter : after = RateLimiter.increment start).
  { unfold after. rewrite fetchStockHistory_counts.
    apply checkRateLimit_passed_counts. exact Hpass. }
  rewrite Hafter. repeat split.
  - apply increment_resetWindows_changes.
  - unfold start. rewrite resetWindows_inside by assumption. reflexivity.
  - unfold start. rewrite resetWindows_inside by assumption. reflexivity.
Qed.

(** C5.  A call whose fetch settles has passed the rate-limit check.
    When the fetch then settles, on its first attempt or after retries,
    with a response whose status is neither 2xx nor 429:
    [fetchStockQuote] returns the "Unable to retrieve data for symbol"
    text; in [fetchMarketData] that index yields no record and no error,
    the call returns the "Unable to retrieve market data" text when every
    fetch of the batch is answered so, and it returns some text (never
    throws) whatever the network answers; [fetchStockHistory], with a
    valid period and interval, throws an error whose message carries the
    status code and the status text. *)
Theorem upstream_error_soft_or_hard now w :
  fst (RateLimiter.checkRateLimit now (counts w)) = inr tt ->
  (forall symbol k response,
      settlesWith net (chartUrl symbol (now / 1000 - 60) (now / 1000) "1d")
                  w k response ->
      Response.ok response = false ->
      Response.status response <> 429 ->
      fst (fetchStockQuote host net now symbol w)
        = Returned ("Unable to retrieve data for symbol: " ++ symbol
            ++ ". The ticker symbol may be invalid or Yahoo Finance data may be temporarily unavailable."))
  /\ (forall period1 period2 indexSymbol w0 k response,
        settlesWith net (chartUrl indexSymbol period1 period2 "1d")
                    w0 k response ->
        Response.ok response = false ->
        Response.status response <> 429 ->
        fst (tryIndex net period1 period2 indexSymbol w0) = Returned None)
  /\ (forall indices,
        (forall k url,
            (List.length (fetched w) <= k)%nat ->
            exists response,
              net k url = Fulfilled response
              /\ Response.ok response = false
              /\ Response.status response <> 429) ->
        fst (fetchMarketData host net now indices w)
          = Returned "Unable to retrieve market data. Yahoo Finance data may be temporarily unavailable.")
  /\ (forall indices,
        exists text,
          fst (fetchMarketData host net now indices w) = Returned text)
  /\ (forall symbol period interval k response,
        includes validPeriods period = true ->
        includes validIntervals interval = true ->
        settlesWith net
          (chartUrl symbol (period1Of host now (now / 1000) period)
                    (now / 1000) interval)
          w k response ->
        Response.ok response = false ->
        Response.status response <> 429 ->
        fst (fetchStockHistory host net now symbol period interval w)
          = Thrown ("Failed to fetch stock history: API error: "
                    ++ showZ (Response.status response) ++ " "
                    ++ Response.statusText response)).
Proof.
  intros Hpass. split; [|split; [|split; [|split]]].
  - intros symbol k response Hsettle Hok Hstatus.
    unfold fetchStockQuote, bind at 1.
    rewrite (checkRateLimit_passes now w Hpass).
    unfold rethrow, tryCatch, bind. cbv zeta.
    rewrite (fetchWithRetry_settles _ w (afterCheck now w) k response
               eq_refl Hsettle Hstatus).
    rewrite Hok. reflexivity.
  - intros period1 period2 indexSymbol w0 k response Hsettle Hok Hstatus.
    unfold tryIndex, bind.
    rewrite (fetchWithRetry_settles _ w0 w0 k response eq_refl Hsettle Hstatus).
    rewrite Hok. reflexivity.
  - intros indices Hall.
    destruct (fetchMarketData_passed now indices w Hpass)
      as (records & w' & HB & HR).
    rewrite HR. cbn [fst].
    assert (Hnone : forall idx w0 recs w1,
               Batch net (now / 1000 - 60) (now / 1000) idx w0 recs w1 ->
               (List.length (fetched w) <= List.length (fetched w0))%nat ->
               recs = []).
    { induction 1 as [w0 | s rest w0 r w1 recs w2 Hstep HBr IH
                         | s rest w0 w1 recs w2 Hstep HBr IH
                         | s rest w0 e w1 recs w2 Hstep HBr IH];
        intros Hlen; [reflexivity | exfalso | apply IH | apply IH].
      - destruct (Hall (List.length (fetched w0))
                       (chartUrl s (now / 1000 - 60) (now / 1000) "1d") Hlen)
          as (resp & Hnet & Hok & Hstatus).
        unfold tryIndex, bind in Hstep.
        rewrite (fetchWithRetry_first _ w0 resp Hnet Hstatus), Hok in Hstep.
        discriminate Hstep.
      - destruct (tryIndex_fetches (now / 1000 - 60) (now / 1000) s w0)
          as (n & _ & Hn).
        rewrite Hstep in Hn. cbn [snd] in Hn. lia.
      - destruct (tryIndex_fetches (now / 1000 - 60) (now / 1000) s w0)
          as (n & _ & Hn).
        rewrite Hstep in Hn. cbn [snd] in Hn. lia. }
    rewrite (Hnone _ _ _ _ HB); [reflexivity|]. cbn. lia.
  - intros indices.
    destruct (fetchMarketData_passed now indices w Hpass)
      as (records & w' & HB & HR).
    rewrite HR. eexists. reflexivity.
  - intros symbol period interval k response Hperiod Hinterval Hsettle
           Hok Hstatus.
    unfold fetchStockHistory, bind at 1.
    rewrite (checkRateLimit_passes now w Hpass).
    unfold rethrow, tryCatch. rewrite Hperiod, Hinterval. cbn [negb].
    unfold bind. cbv zeta.
    rewrite (fetchWithRetry_settles _ w (afterCheck now w) k response
               eq_refl Hsettle Hstatus).
    rewrite Hok. reflexivity.
Qed.

End PipelineFacts.




(** The invalid period "1week" on a freshly loaded module. *)
Lemma fetchStockHistory_invalid_argument_witness :
  fetchStockHistory enUS_UTC (always notFound) 1000 "AAPL" "1week" "1d"
                    (freshWorld 0)
  = (Thrown "Failed to fetch stock history: Invalid period: 1week. Valid periods are: 1d, 5d, 1mo, 3mo, 6mo, 1y, 2y, 5y, 10y, ytd, max",
     afterCheck 1000 (freshWorld 0)).
Proof.
  exact (proj1 (proj1 (fetchStockHistory_invalid_argument enUS_UTC
                         (always notFound) 1000 "AAPL" "1week" "1d"
                         (freshWorld 0)) eq_refl) eq_refl).
Defined.

(** C6 as stated fails when the rate limiter rejects the call: after the
    20 calls of [burst], a history call with the invalid period "1week"
    throws "Rate limit exceeded", which does not name the period. *)
Lemma fetchStockHistory_rate_limited_counterexample :
  includes validPeriods "1week" = false
  /\ fetchStockHistory enUS_UTC (always notFound) 300 "AAPL" "1week" "1d"
                       limitedWorld
     = (Thrown "Rate limit exceeded. Please try again later.", limitedWorld).
Proof.
  split; vm_compute; reflexivity.
Qed.

(** The invalid period "1week" on a freshly loaded module: both counters
    go from 0 to 1. *)
Lemma fetchStockHistory_invalid_argument_counts_witness :
  RateLimiter.minute
    (counts (snd (fetchStockHistory enUS_UTC (always notFound) 1000
                                    "AAPL" "1week" "1d" (freshWorld 0))))
  = RateLimiter.minute
      (RateLimiter.resetWindows 1000 (counts (freshWorld 0))) + 1.
Proof.
  exact (proj1 (proj2 (fetchStockHistory_invalid_argument_counts enUS_UTC
                         (always notFound) 1000 "AAPL" "1week" "1d"
                         (freshWorld 0))
                      (or_introl eq_refl))).
Defined.

(** A network that answers 404: the quote pipeline returns its apology,
    the history pipeline throws. *)
Lemma upstream_error_soft_or_hard_witness :
  fst (fetchStockQuote enUS_UTC (always notFound) 1000 "AAPL" (freshWorld 0))
    = Returned "Unable to retrieve data for symbol: AAPL. The ticker symbol may be invalid or Yahoo Finance data may be temporarily unavailable."
  /\ fst (fetchMarketData enUS_UTC (always notFound) 1000 defaultIndices
                          (freshWorld 0))
    = Returned "Unable to retrieve market data. Yahoo Finance data may be temporarily unavailable."
  /\ fst (fetchStockHistory enUS_UTC (always notFound) 1000 "AAPL" "1mo" "1d"
                            (freshWorld 0))
    = Thrown "Failed to fetch stock history: API error: 404 Not Found".
Proof.
  assert (Hsettle : forall url,
             settlesWith (always notFound) url (freshWorld 0) 0 notFound).
  { intros url. split; [lia|]. split; [intros i Hi; lia | reflexivity]. }
  destruct (upstream_error_soft_or_hard enUS_UTC (always notFound) 1000
              (freshWorld 0) eq_refl)
    as (Hquote & _ & Hmarket & _ & Hhistory).
  split; [|split].
  - apply (Hquote "AAPL" 0%nat notFound);
      [apply Hsettle | reflexivity | discriminate].
  - apply (Hmarket defaultIndices). intros k url _.
    exists notFound. repeat split. discriminate.
  - apply (Hhistory "AAPL" "1mo" "1d" 0%nat notFound);
      [reflexivity | reflexivity | apply Hsettle | reflexivity | discriminate].
Defined.

(* ===================================================================== *)
(** ** The quote report *)
(* ===================================================================== *)

Section QuoteFacts.

Variable host : Host.

Lemma string_app_assoc (a b c : string) : (a ++ b) ++ c = a ++ b ++ c.
Proof.
  induction a as [|x a IH]; [reflexivity|].
  cbn [append]. rewrite IH. reflexivity.
Qed.

Lemma formatNumber_absent v : absent v -> formatNumber host v = "N/A".
Proof. intros [-> | ->]; reflexivity. Qed.

Lemma orNum_absent a b : absent a -> orNum a b = b.
Proof. intros [-> | ->]; reflexivity. Qed.

(** C8 on the code.  The claim asks that a change whose operands are
    absent be rendered absent, with no arithmetic on absent operands.
    [fetchStockQuote] computes the change and the change percent from
    whatever the [meta] block holds: the change line is always the
    difference of the two operands as numbers, and its quotient by the
    previous close times 100 to two decimals.  So for a [meta] block
    without values the report reads "Change: $NaN (NaN%)" between lines
    that read N/A.  The rest of the report is as claimed: a numeric field
    that is absent (missing or [null]) renders as N/A, for the price, the
    previous close, the open, the 52-week range, and for the day range and
    the volume when they are absent from the first quote-series point as
    well; average volume, market cap, P/E ratio, EPS and dividend yield
    always render as N/A; a name absent under both [shortName] and
    [longName] renders as the requested symbol; numbers that are present
    render through the host's [toLocaleString], and on an en-US host the
    README's quote renders with grouped thousands, as do the numbers of
    the last line.  The percent of a price of 1000.75 after a close of
    1000 renders as 0.07%, the product being just below 0.075. *)
Theorem quote_report_fields (m : Meta.t) (result : ChartResult.t)
    (symbol : string) :
  let quote := quoteData m result symbol in
  let line := fun i => nth i (quoteLines host quote) "" in
  let series := ChartResult.quote0 result in
  let price := toNumber (Meta.regularMarketPrice m) in
  let previous := toNumber (Meta.chartPreviousClose m) in
  formatStockQuote host quote = trim (template (quoteLines host quote))
  /\ line 3%nat =
       "Change: $" ++ toLocaleString host (nsub price previous)
         ++ " (" ++ toFixed2 (nmul (ndiv (nsub price previous) previous)
                                   (ofZ 100)) ++ "%)"
  /\ fst (fetchStockQuote enUS_UTC (always (okResponse (Some bareResult)))
                          1000 "AAPL" (freshWorld 0)) =
     Returned
"Symbol: undefined
Name: AAPL
Price: $N/A
Change: $NaN (NaN%)
Previous Close: $N/A
Open: $N/A
Day Range: $N/A - $N/A
52 Week Range: $N/A - $N/A
Volume: N/A
Avg. Volume: N/A
Market Cap: $N/A
P/E Ratio: N/A
EPS: $N/A
Dividend Yield: N/A"
  /\ (absent (Meta.regularMarketPrice m) -> line 2%nat = "Price: $N/A")
  /\ (absent (Meta.chartPreviousClose m) ->
      line 4%nat = "Previous Close: $N/A")
  /\ (absent (column series QuoteSeries.open 0) -> line 5%nat = "Open: $N/A")
  /\ (absent (Meta.regularMarketDayLow m) ->
      absent (column series QuoteSeries.low 0) ->
      absent (Meta.regularMarketDayHigh m) ->
      absent (column series QuoteSeries.high 0) ->
      line 6%nat = "Day Range: $N/A - $N/A")
  /\ (absent (Meta.fiftyTwoWeekLow m) ->
      absent (Meta.fiftyTwoWeekHigh m) ->
      line 7%nat = "52 Week Range: $N/A - $N/A")
  /\ (absent (Meta.regularMarketVolume m) ->
      absent (column series QuoteSeries.volume 0) ->
      line 8%nat = "Volume: N/A")
  /\ line 9%nat = "Avg. Volume: N/A"
  /\ line 10%nat = "Market Cap: $N/A"
  /\ line 11%nat = "P/E Ratio: N/A"
  /\ line 12%nat = "EPS: $N/A"
  /\ line 13%nat = "Dividend Yield: N/A"
  /\ (truthyStr (Meta.shortName m) = false ->
      truthyStr (Meta.longName m) = false ->
      symbol <> "" ->
      line 1%nat = "Name: " ++ symbol)
  /\ (forall x,
        Meta.regularMarketPrice m = NVal x ->
        line 2%nat = "Price: $" ++ toLocaleString host x)
  /\ (forall x,
        Meta.chartPreviousClose m = NVal x ->
        line 4%nat = "Previous Close: $" ++ toLocaleString host x)
  /\ formatStockQuote enUS_UTC (quoteData appleMeta appleResult "AAPL") =
"Symbol: AAPL
Name: Apple Inc.
Price: $196.34
Change: $1.67 (0.86%)
Previous Close: $194.67
Open: $195.01
Day Range: $194.14 - $197.21
52 Week Range: $124.17 - $197.21
Volume: 54,364,985
Avg. Volume: N/A
Market Cap: $N/A
P/E Ratio: N/A
EPS: $N/A
Dividend Yield: N/A"
  /\ formatPercent
       (NVal (ndiv (nsub (toNumber (num 100075 100)) (ofZ 1000)) (ofZ 1000)))
     = "0.07%"
  /\ map (fun v => formatNumber enUS_UTC v)
         [num 999 1; num 1000 1; num 1234567 1; num 123456789 100;
          num (-98765432) 10; num 12346 10000]
     = ["999"; "1,000"; "1,234,567"; "1,234,567.89"; "-9,876,543.2"; "1.235"].
Proof.
  intros quote line series price previous. unfold line, quote, price, previous.
  cbn [quoteLines nth quoteData Quote.symbol Quote.shortName Quote.longName
       Quote.regularMarketPrice Quote.regularMarketChange
       Quote.regularMarketChangePercent Quote.regularMarketPreviousClose
       Quote.regularMarketOpen Quote.regularMarketDayLow
       Quote.regularMarketDayHigh Quote.fiftyTwoWeekLow Quote.fiftyTwoWeekHigh
       Quote.regularMarketVolume Quote.averageDailyVolume3Month
       Quote.marketCap Quote.trailingPE Quote.epsTrailingTwelveMonths
       Quote.dividendYield].
  fold series.
  split; [reflexivity|].
  split.
  { cbn [formatNumber formatPercent]. rewrite string_app_assoc.
    reflexivity. }
  split; [vm_compute; reflexivity|].
  split; [intros H; rewrite (formatNumber_absent _ H); reflexivity|].
  split; [intros H; rewrite (formatNumber_absent _ H); reflexivity|].
  split; [intros H; rewrite (formatNumber_absent _ H); reflexivity|].
  split.
  { intros H1 H2 H3 H4.
    rewrite (orNum_absent _ _ H1), (orNum_absent _ _ H3).
    rewrite (formatNumber_absent _ H2), (formatNumber_absent _ H4).
    reflexivity. }
  split.
  { intros H1 H2.
    rewrite (formatNumber_absent _ H1), (formatNumber_absent _ H2).
    reflexivity. }
  split.
  { intros H1 H2. rewrite (orNum_absent _ _ H1).
    rewrite (formatNumber_absent _ H2). reflexivity. }
  do 5 (split; [reflexivity|]).
  split.
  { intros Hs Hl Hsym.
    assert (E1 : orStr (Meta.shortName m) (Meta.longName m) = Meta.longName m)
      by (unfold orStr; rewrite Hs; reflexivity).
    assert (E2 : orStr (Meta.longName m) (SVal symbol) = SVal symbol)
      by (unfold orStr; rewrite Hl; reflexivity).
    rewrite E1, E2. apply String.eqb_neq in Hsym.
    unfold orStr, truthyStr. rewrite Hsym. cbn [negb].
    rewrite Hsym. reflexivity. }
  split; [intros x ->; reflexivity|].
  split; [intros x ->; reflexivity|].
  repeat split; vm_compute; reflexivity.
Qed.

End QuoteFacts.

(** The theorem on a [meta] block without a price: the price line. *)
Lemma quote_report_fields_witness :
  nth 2 (quoteLines enUS_UTC (quoteData noMeta bareResult "AAPL")) ""
    = "Price: $N/A".
Proof.
  destruct (quote_report_fields enUS_UTC noMeta bareResult "AAPL")
    as (_ & _ & _ & H & _).
  apply H. left. reflexivity.
Defined.

(* ===================================================================== *)
(** ** Further properties of the rate limiter *)
(* ===================================================================== *)

Section RateLimiterMore.

Import RateLimiter.

Lemma runCalls_app times1 times2 rc :
  runCalls (times1 ++ times2) rc =
    (fst (runCalls times1 rc) ++ fst (runCalls times2 (snd (runCalls times1 rc))),
     snd (runCalls times2 (snd (runCalls times1 rc))))%list.
Proof.
  revert rc. induction times1 as [|t ts IH]; intros rc.
  - cbn. destruct (runCalls times2 rc); reflexivity.
  - cbn [runCalls app fst snd]. rewrite IH. reflexivity.
Qed.

(** One call keeps both counters within their limits. *)
Lemma checkRateLimit_withinLimits now rc :
  withinLimits rc ->
  withinLimits (snd (RateLimiter.checkRateLimit now rc)).
Proof.
  unfold withinLimits, RateLimiter.checkRateLimit, resetWindows, resetMinute,
    resetDay, increment, perMinute, perDay.
  destruct rc as [m d lm ld]. cbn [minute day lastMinuteReset lastDayReset].
  intros [Hm Hd].
  destruct (60000 <? now - lm);
    cbn [minute day lastMinuteReset lastDayReset];
    destruct (86400000 <? now - ld);
    cbn [minute day lastMinuteReset lastDayReset];
    match goal with
    | |- context [(?a <=? ?b) || (?c <=? ?e)] =>
        destruct (Z.leb_spec a b); destruct (Z.leb_spec c e)
    end; cbn; lia.
Qed.

(** X1.  Whatever the times of the calls (clock jumps included), a run of
    calls that starts with both counters within their limits ends with
    both within them: neither counter goes below 0, the minute counter
    never passes 20 and the day counter never passes 500. *)
Theorem runCalls_withinLimits times rc :
  withinLimits rc -> withinLimits (snd (runCalls times rc)).
Proof.
  revert rc. induction times as [|t ts IH]; intros rc H; [exact H|].
  cbn [runCalls snd]. apply IH. apply checkRateLimit_withinLimits. exact H.
Qed.

Lemma runCalls_withinLimits_witness :
  withinLimits (snd (runCalls busyDay (initial 0))).
Proof.
  apply (runCalls_withinLimits busyDay (initial 0)).
  unfold withinLimits. cbn. unfold perMinute, perDay. lia.
Defined.

(** What one call does to a window that it does not reset. *)
Lemma checkRateLimit_minute_step t rc :
  t - lastMinuteReset rc <= 60000 ->
  lastMinuteReset (snd (RateLimiter.checkRateLimit t rc)) = lastMinuteReset rc
  /\ minute (snd (RateLimiter.checkRateLimit t rc))
     = minute rc + (match fst (RateLimiter.checkRateLimit t rc) with
                    | inr _ => 1
                    | inl _ => 0
                    end).
Proof.
  intros Ht.
  unfold RateLimiter.checkRateLimit, resetWindows, resetMinute, resetDay.
  destruct rc as [m d lm ld]. cbn [minute day lastMinuteReset lastDayReset] in *.
  destruct (Z.ltb_spec 60000 (t - lm)); [lia|].
  cbn [minute day lastMinuteReset lastDayReset].
  destruct (86400000 <? t - ld);
    cbn [minute day lastMinuteReset lastDayReset];
    destruct (_ || _); cbn; split; lia.
Qed.

Lemma checkRateLimit_day_step t rc :
  t - lastDayReset rc <= 86400000 ->
  lastDayReset (snd (RateLimiter.checkRateLimit t rc)) = lastDayReset rc
  /\ day (snd (RateLimiter.checkRateLimit t rc))
     = day rc + (match fst (RateLimiter.checkRateLimit t rc) with
                 | inr _ => 1
                 | inl _ => 0
                 end).
Proof.
  intros Ht.
  unfold RateLimiter.checkRateLimit, resetWindows, resetMinute, resetDay.
  destruct rc as [m d lm ld]. cbn [minute day lastMinuteReset lastDayReset] in *.
  destruct (60000 <? t - lm);
    cbn [minute day lastMinuteReset lastDayReset];
    (destruct (Z.ltb_spec 86400000 (t - ld)); [lia|]);
    cbn [minute day lastMinuteReset lastDayReset];
    destruct (_ || _); cbn; split; lia.
Qed.

(** X2.  Between two resets of a window the limiter lets through no more
    calls than the window has left: in a run without a reset of the
    minute window at most [20 - minute] calls return, and in a run
    without a reset of the day window at most [500 - day]. *)
Theorem runCalls_admits_at_most times rc :
  withinLimits rc ->
  (Forall (fun t => t - lastMinuteReset rc <= 60000) times ->
   Z.of_nat (successes (fst (runCalls times rc))) <= perMinute - minute rc)
  /\ (Forall (fun t => t - lastDayReset rc <= 86400000) times ->
      Z.of_nat (successes (fst (runCalls times rc))) <= perDay - day rc).
Proof.
  revert rc. induction times as [|t ts IH]; intros rc Hlim.
  - destruct Hlim as [Hm Hd]. unfold perMinute, perDay in *.
    cbn [runCalls fst successes filter List.length Z.of_nat].
    split; intros _; lia.
  - pose proof (checkRateLimit_withinLimits t rc Hlim) as Hlim'.
    destruct (IH _ Hlim') as [IHm IHd]. clear IH.
    cbn [runCalls fst snd]. unfold successes in *.
    split; intros HF; inversion HF as [|? ? Ht HF']; subst.
    + destruct (checkRateLimit_minute_step t rc Ht) as [Hsame Hminute].
      rewrite <- Hsame in HF'. specialize (IHm HF').
      destruct (fst (RateLimiter.checkRateLimit t rc));
        cbn [filter List.length]; lia.
    + destruct (checkRateLimit_day_step t rc Ht) as [Hsame Hday].
      rewrite <- Hsame in HF'. specialize (IHd HF').
      destruct (fst (RateLimiter.checkRateLimit t rc));
        cbn [filter List.length]; lia.
Qed.

Lemma runCalls_admits_at_most_witness :
  Z.of_nat (successes (fst (runCalls (burst ++ [300]) (initial 0))))
    <= perMinute - minute (initial 0).
Proof.
  apply (runCalls_admits_at_most (burst ++ [300]) (initial 0)).
  - unfold withinLimits. cbn. unfold perMinute, perDay. lia.
  - unfold burst. cbn.
    repeat (apply Forall_cons; [lia|]). apply Forall_nil.
Defined.

(** Calls inside both windows with room for all of them all return. *)
Lemma runCalls_all_pass times :
  forall rc,
    Forall (fun t => t - lastMinuteReset rc <= 60000
                     /\ t - lastDayReset rc <= 86400000) times ->
    minute rc + Z.of_nat (List.length times) <= perMinute ->
    day rc + Z.of_nat (List.length times) <= perDay ->
    runCalls times rc =
      (repeat true (List.length times),
       {| minute := minute rc + Z.of_nat (List.length times);
          day := day rc + Z.of_nat (List.length times);
          lastMinuteReset := lastMinuteReset rc;
          lastDayReset := lastDayReset rc |}).
Proof.
  induction times as [|t ts IH]; intros rc HF Hm Hd.
  - cbn [runCalls List.length repeat Z.of_nat]. rewrite !Z.add_0_r.
    destruct rc; reflexivity.
  - inversion HF as [|? ? [Ht1 Ht2] HF']; subst.
    cbn [List.length] in Hm, Hd. rewrite Nat2Z.inj_succ in Hm, Hd.
    cbn [runCalls].
    rewrite checkRateLimit_inside_ok by lia.
    cbn [fst snd]. rewrite IH.
    + cbn [fst snd repeat List.length increment minute day lastMinuteReset
           lastDayReset].
      rewrite Nat2Z.inj_succ. do 2 f_equal; lia.
    + exact HF'.
    + cbn [increment minute]. lia.
    + cbn [increment day]. lia.
Qed.

(** X3.  The window is fixed, not sliding.  Take a run of calls inside
    the current minute window, then a call [b] made after that window has
    ended, then calls within a minute of [b]; if each group fits the
    minute limit (the second one counted with [b]) and all fit the day
    limit, every call returns.  So 20 calls just before the end of a
    window and 20 just after it, 40 calls in as short a span as one
    likes, all pass. *)
Theorem runCalls_window_boundary rc early b late :
  Forall (fun t => t - lastMinuteReset rc <= 60000
                   /\ t - lastDayReset rc <= 86400000) early ->
  60000 < b - lastMinuteReset rc ->
  b - lastDayReset rc <= 86400000 ->
  Forall (fun t => t - b <= 60000 /\ t - lastDayReset rc <= 86400000) late ->
  minute rc + Z.of_nat (List.length early) <= perMinute ->
  1 + Z.of_nat (List.length late) <= perMinute ->
  0 <= day rc ->
  day rc + Z.of_nat (List.length early) + 1 + Z.of_nat (List.length late)
    <= perDay ->
  fst (runCalls (early ++ b :: late) rc)
    = repeat true (List.length early + 1 + List.length late).
Proof.
  intros Hearly Hb Hbd Hlate Hm1 Hm2 Hd0 Hd.
  rewrite runCalls_app, (runCalls_all_pass early rc Hearly) by lia.
  cbn [fst snd runCalls].
  set (rc1 := {| minute := minute rc + Z.of_nat (List.length early);
                 day := day rc + Z.of_nat (List.length early);
                 lastMinuteReset := lastMinuteReset rc;
                 lastDayReset := lastDayReset rc |}).
  assert (Hcall : RateLimiter.checkRateLimit b rc1 =
                  (inr tt, {| minute := 1;
                              day := day rc + Z.of_nat (List.length early) + 1;
                              lastMinuteReset := b;
                              lastDayReset := lastDayReset rc |})).
  { unfold RateLimiter.checkRateLimit, resetWindows, resetMinute, resetDay,
      increment, rc1, perMinute, perDay in *.
    cbn [minute day lastMinuteReset lastDayReset].
    destruct (Z.ltb_spec 60000 (b - lastMinuteReset rc)); [|lia].
    cbn [minute day lastMinuteReset lastDayReset].
    destruct (Z.ltb_spec 86400000 (b - lastDayReset rc)); [lia|].
    cbn [minute day lastMinuteReset lastDayReset].
    destruct (Z.leb_spec 20 0); [lia|].
    destruct (Z.leb_spec 500 (day rc + Z.of_nat (List.length early))); [lia|].
    reflexivity. }
  rewrite Hcall. cbn [fst snd].
  rewrite runCalls_all_pass.
  - cbn [fst]. rewrite <- Nat.add_assoc, repeat_app. reflexivity.
  - exact Hlate.
  - cbn [minute]. exact Hm2.
  - cbn [day]. lia.
Qed.

Lemma runCalls_window_boundary_witness :
  fst (runCalls (repeat 60000 20 ++ 60001 :: repeat 60001 19) (initial 0))
    = repeat true 40.
Proof.
  apply (runCalls_window_boundary (initial 0) (repeat 60000 20) 60001
                                  (repeat 60001 19)).
  - cbn. repeat (apply Forall_cons; [split; lia|]). apply Forall_nil.
  - cbn. lia.
  - cbn. lia.
  - cbn. repeat (apply Forall_cons; [split; lia|]). apply Forall_nil.
  - vm_compute. discriminate.
  - vm_compute. discriminate.
  - cbn. lia.
  - vm_compute. discriminate.
Defined.

End RateLimiterMore.

(* ===================================================================== *)
(** ** Further properties of the retrying fetch *)
(* ===================================================================== *)

Section FetchMore.

Variable net : Network.

(** One turn of the loop. *)
Lemma retryLoop_turn url remaining retries lastError w :
  retryLoop net (S remaining) retries lastError url w =
    let w1 := {| counts := counts w; fetched := fetched w ++ [url];
                 waits := waits w ++ [backoff retries] |} in
    match net (List.length (fetched w)) url with
    | Rejected e => retryLoop net remaining (S retries) (Some e) url w1
    | Fulfilled response =>
        if Response.status response =? 429
        then retryLoop net remaining (S retries) lastError url w1
        else (Returned response,
              {| counts := counts w; fetched := fetched w ++ [url];
                 waits := waits w |})
    end.
Proof.
  cbn [retryLoop]. unfold bind at 1. cbn [doFetch]. cbv zeta.
  destruct (net (List.length (fetched w)) url) as [e|response].
  - reflexivity.
  - destruct (Response.status response =? 429); reflexivity.
Qed.

(** What a run of the loop leaves behind, for any network. *)
Lemma retryLoop_effects url :
  forall remaining retries lastError w,
  exists n,
    (n <= remaining)%nat
    /\ fetched (snd (retryLoop net remaining retries lastError url w))
       = (fetched w ++ repeat url n)%list
    /\ counts (snd (retryLoop net remaining retries lastError url w))
       = counts w
    /\ match fst (retryLoop net remaining retries lastError url w) with
       | Returned response =>
           (1 <= n)%nat
           /\ Response.status response <> 429
           /\ waits (snd (retryLoop net remaining retries lastError url w))
              = (waits w ++ map backoff (seq retries (n - 1)))%list
       | Thrown _ =>
           n = remaining
           /\ waits (snd (retryLoop net remaining retries lastError url w))
              = (waits w ++ map backoff (seq retries n))%list
       end.
Proof.
  induction remaining as [|remaining IH]; intros retries lastError w.
  - exists 0%nat. cbn. rewrite !app_nil_r. repeat split; reflexivity.
  - rewrite retryLoop_turn. cbv zeta.
    assert (Hretry : forall seed, exists n,
      (n <= S remaining)%nat
      /\ fetched (snd (retryLoop net remaining (S retries) seed url
                         {| counts := counts w; fetched := fetched w ++ [url];
                            waits := waits w ++ [backoff retries] |}))
         = (fetched w ++ repeat url n)%list
      /\ counts (snd (retryLoop net remaining (S retries) seed url
                         {| counts := counts w; fetched := fetched w ++ [url];
                            waits := waits w ++ [backoff retries] |}))
         = counts w
      /\ match fst (retryLoop net remaining (S retries) seed url
                         {| counts := counts w; fetched := fetched w ++ [url];
                            waits := waits w ++ [backoff retries] |}) with
         | Returned response =>
             (1 <= n)%nat
             /\ Response.status response <> 429
             /\ waits (snd (retryLoop net remaining (S retries) seed url
                         {| counts := counts w; fetched := fetched w ++ [url];
                            waits := waits w ++ [backoff retries] |}))
                = (waits w ++ map backoff (seq retries (n - 1)))%list
         | Thrown _ =>
             n = S remaining
             /\ waits (snd (retryLoop net remaining (S retries) seed url
                         {| counts := counts w; fetched := fetched w ++ [url];
                            waits := waits w ++ [backoff retries] |}))
                = (waits w ++ map backoff (seq retries n))%list
         end).
    { intros seed.
      destruct (IH (S retries) seed
                  {| counts := counts w; fetched := fetched w ++ [url];
                     waits := waits w ++ [backoff retries] |})
        as (n & Hn & Hf & Hc & Hr).
      exists (S n).
      destruct (retryLoop net remaining (S retries) seed url _)
        as [[response|e] w1]; cbn [fst snd counts fetched waits] in *.
      - destruct Hr as (H1 & Hs & Hw).
        repeat split; try lia; try assumption.
        + rewrite Hf, <- app_assoc. reflexivity.
        + rewrite Hw, <- app_assoc.
          replace (S n - 1)%nat with (S (n - 1)) by lia. reflexivity.
      - destruct Hr as (H1 & Hw).
        repeat split; try lia; try assumption.
        + rewrite Hf, <- app_assoc. reflexivity.
        + rewrite Hw, <- app_assoc. reflexivity. }
    destruct (net (List.length (fetched w)) url) as [e|response].
    + apply Hretry.
    + destruct (Z.eqb_spec (Response.status response) 429) as [E|E].
      * apply Hretry.
      * exists 1%nat. cbn. rewrite app_nil_r.
        repeat split; try lia; assumption.
Qed.

(** X4.  [fetchWithRetry], whatever the network does: it fetches the
    given URL and no other, at most [maxRetries] times; it leaves
    [requestCount] alone; a response it returns was fetched (at least one
    fetch) and is never a 429, and no timer follows it (the waits are
    those of the attempts before it); it throws only after all
    [maxRetries] attempts, each followed by its wait. *)
Theorem fetchWithRetry_effects url maxRetries w :
  exists n,
    (n <= maxRetries)%nat
    /\ fetched (snd (fetchWithRetry net url maxRetries w))
       = (fetched w ++ repeat url n)%list
    /\ counts (snd (fetchWithRetry net url maxRetries w)) = counts w
    /\ match fst (fetchWithRetry net url maxRetries w) with
       | Returned response =>
           (1 <= n)%nat
           /\ Response.status response <> 429
           /\ waits (snd (fetchWithRetry net url maxRetries w))
              = (waits w ++ map backoff (seq 0 (n - 1)))%list
       | Thrown _ =>
           n = maxRetries
           /\ waits (snd (fetchWithRetry net url maxRetries w))
              = (waits w ++ map backoff (seq 0 n))%list
       end.
Proof. apply retryLoop_effects. Qed.

Lemma totalWait_app a b : totalWait (a ++ b) = totalWait a + totalWait b.
Proof.
  induction a as [|x a IH]; [reflexivity|].
  cbn [app totalWait fold_right] in *. fold (totalWait (a ++ b)).
  fold (totalWait a). rewrite IH. lia.
Qed.

(** The waits before attempt [k] add up to 2^k - 1 seconds. *)
Lemma totalWait_backoff k :
  totalWait (map backoff (seq 0 k)) = (2 ^ Z.of_nat k - 1) * 1000.
Proof.
  induction k as [|k IH]; [reflexivity|].
  rewrite seq_S, map_app, totalWait_app, IH. cbn [map totalWait fold_right].
  unfold backoff. rewrite Nat2Z.inj_succ, Z.pow_succ_r by lia. cbn [Nat.add].
  lia.
Qed.

(** X5.  The time one call of [fetchWithRetry] spends in backoff timers
    is at most 2^maxRetries - 1 seconds (7 s with the default 3), and
    exactly that when the call throws. *)
Theorem fetchWithRetry_total_wait url maxRetries w :
  0 <= totalWait (waits (snd (fetchWithRetry net url maxRetries w)))
       - totalWait (waits w)
    <= (2 ^ Z.of_nat maxRetries - 1) * 1000
  /\ (forall e,
        fst (fetchWithRetry net url maxRetries w) = Thrown e ->
        totalWait (waits (snd (fetchWithRetry net url maxRetries w)))
          - totalWait (waits w)
        = (2 ^ Z.of_nat maxRetries - 1) * 1000)
  /\ (2 ^ Z.of_nat 3 - 1) * 1000 = 7000.
Proof.
  destruct (fetchWithRetry_effects url maxRetries w) as (n & Hn & _ & _ & Hr).
  assert (Hmono : forall k, (k <= maxRetries)%nat ->
            0 <= (2 ^ Z.of_nat k - 1) * 1000
              <= (2 ^ Z.of_nat maxRetries - 1) * 1000).
  { intros k Hk.
    assert (0 < 2 ^ Z.of_nat k) by (apply Z.pow_pos_nonneg; lia).
    assert (2 ^ Z.of_nat k <= 2 ^ Z.of_nat maxRetries)
      by (apply Z.pow_le_mono_r; lia).
    lia. }
  destruct (fst (fetchWithRetry net url maxRetries w)) as [response|e0].
  - destruct Hr as (H1 & _ & Hw). rewrite Hw, totalWait_app, totalWait_backoff.
    split; [|split; [intros e He; discriminate He | reflexivity]].
    pose proof (Hmono (n - 1)%nat ltac:(lia)). lia.
  - destruct Hr as (-> & Hw). rewrite Hw, totalWait_app, totalWait_backoff.
    split; [|split; [intros e _; lia | reflexivity]].
    pose proof (Hmono maxRetries (Nat.le_refl _)). lia.
Qed.

End FetchMore.

Lemma fetchWithRetry_total_wait_witness :
  totalWait (waits (snd (fetchWithRetry (always tooMany) "u" 3 (freshWorld 0))))
    - totalWait (waits (freshWorld 0))
  = (2 ^ Z.of_nat 3 - 1) * 1000.
Proof.
  exact (proj1 (proj2 (fetchWithRetry_total_wait (always tooMany) "u" 3
                         (freshWorld 0)))
               "Maximum retries exceeded" eq_refl).
Defined.

(* ===================================================================== *)
(** ** Further properties of the pipelines *)
(* ===================================================================== *)

Section PipelineMore.

Variable host : Host.
Variable net : Network.


Lemma ok_not_429 response :
  Response.ok response = true -> Response.status response <> 429.
Proof.
  unfold Response.ok. intros H. apply andb_prop in H. destruct H as [_ H].
  apply Z.leb_le in H. lia.
Qed.


(** X7.  Once the rate-limit check has passed, an error that
    [fetchWithRetry] throws (the last transport error, or "Maximum
    retries exceeded"), and an error of decoding the body of an ok
    response, come out of [fetchStockQuote] and of [fetchStockHistory]
    (called with a valid period and interval) under the pipeline's
    prefix, in the world the fetch left. *)
Theorem fetch_failures_surface now w :
  fst (RateLimiter.checkRateLimit now (counts w)) = inr tt ->
  (forall symbol e w1,
      fetchWithRetry net (chartUrl symbol (now / 1000 - 60) (now / 1000) "1d")
                     3 (afterCheck now w) = (Thrown e, w1) ->
      fetchStockQuote host net now symbol w
        = (Thrown ("Failed to fetch stock quote: " ++ e), w1))
  /\ (forall symbol response message w1,
        fetchWithRetry net (chartUrl symbol (now / 1000 - 60) (now / 1000) "1d")
                       3 (afterCheck now w) = (Returned response, w1) ->
        Response.ok response = true ->
        Response.body response = JsonThrows message ->
        fetchStockQuote host net now symbol w
          = (Thrown ("Failed to fetch stock quote: " ++ message), w1))
  /\ (forall symbol period interval e w1,
        includes validPeriods period = true ->
        includes validIntervals interval = true ->
        fetchWithRetry net
          (chartUrl symbol (period1Of host now (now / 1000) period)
                    (now / 1000) interval)
          3 (afterCheck now w) = (Thrown e, w1) ->
        fetchStockHistory host net now symbol period interval w
          = (Thrown ("Failed to fetch stock history: " ++ e), w1))
  /\ (forall symbol period interval response message w1,
        includes validPeriods period = true ->
        includes validIntervals interval = true ->
        fetchWithRetry net
          (chartUrl symbol (period1Of host now (now / 1000) period)
                    (now / 1000) interval)
          3 (afterCheck now w) = (Returned response, w1) ->
        Response.ok response = true ->
        Response.body response = JsonThrows message ->
        fetchStockHistory host net now symbol period interval w
          = (Thrown ("Failed to fetch stock history: " ++ message), w1)).
Proof.
  intros Hpass. split; [|split; [|split]].
  - intros symbol e w1 Hf. unfold fetchStockQuote, bind at 1.
    rewrite (checkRateLimit_passes now w Hpass).
    unfold rethrow, tryCatch, bind. cbv zeta. rewrite Hf. reflexivity.
  - intros symbol response message w1 Hf Hok Hbody.
    unfold fetchStockQuote, bind at 1.
    rewrite (checkRateLimit_passes now w Hpass).
    unfold rethrow, tryCatch, bind. cbv zeta. rewrite Hf, Hok.
    unfold firstResult. rewrite Hbody. reflexivity.
  - intros symbol period interval e w1 Hp Hi Hf.
    unfold fetchStockHistory, bind at 1.
    rewrite (checkRateLimit_passes now w Hpass).
    unfold rethrow, tryCatch. rewrite Hp, Hi. cbn [negb].
    unfold bind. cbv zeta. rewrite Hf. reflexivity.
  - intros symbol period interval response message w1 Hp Hi Hf Hok Hbody.
    unfold fetchStockHistory, bind at 1.
    rewrite (checkRateLimit_passes now w Hpass).
    unfold rethrow, tryCatch. rewrite Hp, Hi. cbn [negb].
    unfold bind. cbv zeta. rewrite Hf, Hok. cbn [negb].
    unfold firstResult. rewrite Hbody. reflexivity.
Qed.

End PipelineMore.


Lemma fetch_failures_surface_witness :
  fst (fetchStockQuote enUS_UTC (always garbled) 1000 "AAPL" (freshWorld 0))
    = Thrown "Failed to fetch stock quote: Unexpected token < in JSON at position 0"
  /\ fst (fetchStockHistory enUS_UTC down 1000 "AAPL" "1mo" "1d" (freshWorld 0))
    = Thrown "Failed to fetch stock history: ECONNRESET".
Proof.
  destruct (fetch_failures_surface enUS_UTC (always garbled) 1000
              (freshWorld 0) eq_refl) as (_ & Hdecode & _).
  destruct (fetch_failures_surface enUS_UTC down 1000
              (freshWorld 0) eq_refl) as (_ & _ & Hdown & _).
  split.
  - erewrite (Hdecode "AAPL" garbled); [reflexivity | vm_compute; reflexivity
                                        | reflexivity | reflexivity].
  - erewrite (Hdown "AAPL" "1mo" "1d");
      [reflexivity | reflexivity | reflexivity | vm_compute; reflexivity].
Defined.

Section PipelineEdges.

Variable host : Host.
Variable net : Network.

(** One index on a network that rejects the three attempts (or answers
    them 429): the body of the inner [try] throws after three fetches
    and the waits of 1, 2 and 4 seconds. *)
Lemma tryIndex_unreachable period1 period2 indexSymbol w0 :
  (forall i, (i < 3)%nat ->
     retryable (net (List.length (fetched w0) + i)%nat
                    (chartUrl indexSymbol period1 period2 "1d")) = true) ->
  exists e,
    tryIndex net period1 period2 indexSymbol w0 =
      (Thrown e,
       {| counts := counts w0;
          fetched := fetched w0
                       ++ repeat (chartUrl indexSymbol period1 period2 "1d") 3;
          waits := waits w0 ++ [1000; 2000; 4000] |}).
Proof.
  intros Hdown. unfold tryIndex, bind, fetchWithRetry.
  rewrite (retryLoop_exhausts net _ 3 0 None w0 Hdown).
  eexists. reflexivity.
Qed.

(** X8.  With the network down for the whole batch (every fetch rejected
    or answered 429), [fetchMarketData] for n indices still returns: the
    "Unable to retrieve market data" text, after 3 n fetches and 7 n
    seconds of backoff, with [requestCount] as the one check left it. *)
Theorem fetchMarketData_network_down now indices w :
  fst (RateLimiter.checkRateLimit now (counts w)) = inr tt ->
  (forall k url, (List.length (fetched w) <= k)%nat ->
     retryable (net k url) = true) ->
  fst (fetchMarketData host net now indices w) = Returned unableMarket
  /\ List.length (fetched (snd (fetchMarketData host net now indices w)))
     = (List.length (fetched w) + 3 * List.length indices)%nat
  /\ totalWait (waits (snd (fetchMarketData host net now indices w)))
     = totalWait (waits w) + 7000 * Z.of_nat (List.length indices)
  /\ counts (snd (fetchMarketData host net now indices w))
     = RateLimiter.increment (RateLimiter.resetWindows now (counts w)).
Proof.
  intros Hpass Hdown.
  assert (Hloop : forall idx acc w0,
            (List.length (fetched w) <= List.length (fetched w0))%nat ->
            exists w',
              indexLoop net (now / 1000 - 60) (now / 1000) idx acc w0
                = (Returned acc, w')
              /\ List.length (fetched w')
                 = (List.length (fetched w0) + 3 * List.length idx)%nat
              /\ totalWait (waits w')
                 = totalWait (waits w0) + 7000 * Z.of_nat (List.length idx)
              /\ counts w' = counts w0).
  { induction idx as [|s rest IH]; intros acc w0 Hlen.
    - exists w0. cbn [indexLoop ret List.length Z.of_nat].
      repeat split; lia.
    - cbn [indexLoop]. unfold bind at 1. rewrite guarded_tryIndex.
      destruct (tryIndex_unreachable (now / 1000 - 60) (now / 1000) s w0)
        as (e & He).
      { intros i _. apply Hdown. lia. }
      rewrite He. cbn [fst snd].
      match goal with
      | |- context [indexLoop _ _ _ rest acc ?w1] =>
          destruct (IH acc w1) as (w' & Hrun & Hf & Hw & Hc)
      end.
      { cbn [fetched]. rewrite length_app. lia. }
      exists w'. split; [exact Hrun|].
      cbn [fetched waits counts] in Hf, Hw, Hc.
      rewrite length_app, repeat_length in Hf.
      rewrite totalWait_app in Hw. cbn [totalWait fold_right] in Hw.
      cbn [List.length]. rewrite Nat2Z.inj_succ.
      repeat split; [lia | lia | exact Hc]. }
  destruct (Hloop indices [] (afterCheck now w) ltac:(cbn; lia))
    as (w' & Hrun & Hf & Hw & Hc).
  assert (E : fetchMarketData host net now indices w
              = (Returned unableMarket, w')).
  { unfold fetchMarketData, bind at 1.
    rewrite (checkRateLimit_passes now w Hpass).
    unfold rethrow, tryCatch, bind. cbv zeta. rewrite Hrun. reflexivity. }
  rewrite E. cbn [fst snd].
  cbn [afterCheck fetched waits counts] in Hf, Hw, Hc.
  repeat split; try assumption.
  rewrite Hc. apply checkRateLimit_passed_counts. exact Hpass.
Qed.

(** X9.  An explicit empty list of indices is not replaced by the
    default: once the rate-limit check has passed (and has used one unit
    of both counters), [fetchMarketData] fetches nothing and returns the
    "Unable to retrieve market data" text. *)
Theorem fetchMarketData_no_indices now w :
  fst (RateLimiter.checkRateLimit now (counts w)) = inr tt ->
  fetchMarketData host net now [] w = (Returned unableMarket, afterCheck now w)
  /\ fetched (afterCheck now w) = fetched w
  /\ counts (afterCheck now w)
     = RateLimiter.increment (RateLimiter.resetWindows now (counts w)).
Proof.
  intros Hpass. split; [|split].
  - unfold fetchMarketData, bind at 1.
    rewrite (checkRateLimit_passes now w Hpass). reflexivity.
  - reflexivity.
  - apply checkRateLimit_passed_counts. exact Hpass.
Qed.

(** X10.  The degraded quote.  [formatBasicQuote] is reached only when
    the result entry has no [meta] block, and everything it prints comes
    from that block: so whatever else the payload holds, the text is the
    same, with the requested symbol as name, N/A for the price and the
    previous close, and NaN for the change. *)
Theorem fetchStockQuote_degraded now symbol w k response result :
  fst (RateLimiter.checkRateLimit now (counts w)) = inr tt ->
  settlesWith net (chartUrl symbol (now / 1000 - 60) (now / 1000) "1d")
              w k response ->
  Response.ok response = true ->
  Response.body response = JsonResult (Some result) ->
  ChartResult.meta result = None ->
  fst (fetchStockQuote host net now symbol w) =
    Returned
      (trim (template
         [ "Symbol: " ++ symbol;
           "Name: " ++ symbol;
           "Price: $N/A";
           "Change: $NaN (NaN%)";
           "Previous Close: $N/A";
           "";
           "Note: Full quote data is unavailable. Showing limited information from chart data." ])).
Proof.
  intros Hpass Hsettle Hok Hbody Hmeta.
  unfold fetchStockQuote, bind at 1.
  rewrite (checkRateLimit_passes now w Hpass).
  unfold rethrow, tryCatch, bind. cbv zeta.
  rewrite (fetchWithRetry_settles net _ w (afterCheck now w) k response
             eq_refl Hsettle (ok_not_429 _ Hok)).
  rewrite Hok. unfold firstResult. rewrite Hbody. cbn [ret fst].
  rewrite Hmeta. unfold formatBasicQuote. rewrite Hmeta. reflexivity.
Qed.

(** X11.  [fetchStockHistory] on an ok response, with a valid period and
    interval: without a result entry it returns the text "No historical
    data found for symbol: ..." (it does not throw); with one it returns
    the formatted history. *)
Theorem fetchStockHistory_ok_response
    now symbol period interval w k response :
  fst (RateLimiter.checkRateLimit now (counts w)) = inr tt ->
  includes validPeriods period = true ->
  includes validIntervals interval = true ->
  settlesWith net
    (chartUrl symbol (period1Of host now (now / 1000) period)
              (now / 1000) interval)
    w k response ->
  Response.ok response = true ->
  (Response.body response = JsonResult None ->
   fst (fetchStockHistory host net now symbol period interval w)
     = Returned ("No historical data found for symbol: " ++ symbol))
  /\ (forall result,
        Response.body response = JsonResult (Some result) ->
        fst (fetchStockHistory host net now symbol period interval w)
          = Returned (formatStockHistory host result symbol period interval)).
Proof.
  intros Hpass Hp Hi Hsettle Hok.
  assert (E : fst (fetchStockHistory host net now symbol period interval w) =
              match Response.body response with
              | JsonThrows e => Thrown ("Failed to fetch stock history: " ++ e)
              | JsonResult None => Returned (noHistory symbol)
              | JsonResult (Some result) =>
                  Returned (formatStockHistory host result symbol period interval)
              end).
  { unfold fetchStockHistory, bind at 1.
    rewrite (checkRateLimit_passes now w Hpass).
    unfold rethrow, tryCatch. rewrite Hp, Hi. cbn [negb].
    unfold bind. cbv zeta.
    rewrite (fetchWithRetry_settles net _ w (afterCheck now w) k response
               eq_refl Hsettle (ok_not_429 _ Hok)).
    rewrite Hok. cbn [negb]. unfold firstResult.
    destruct (Response.body response) as [e|[result|]]; reflexivity. }
  rewrite E. split.
  - intros ->. reflexivity.
  - intros result ->. reflexivity.
Qed.

(** [(x - x) / x] is never truthy: it is a zero when [x] is finite and
    not zero, and [NaN] otherwise. *)
Lemma flat_percent_falsy (x : number) : ntruthy (ndiv (nsub x x) x) = false.
Proof.
  unfold ntruthy, nsub, ndiv, PrimFloat.is_zero, PrimFloat.is_nan.
  rewrite !FloatAxioms.eqb_spec, FloatAxioms.div_spec, FloatAxioms.sub_spec.
  destruct (Prim2SF x) as [s | s | | s m e].
  - destruct s; reflexivity.
  - destruct s; reflexivity.
  - reflexivity.
  - unfold SF64sub, SFsub. rewrite Z.sub_diag. reflexivity.
Qed.

(** X12.  An index whose price equals its previous close: the block of
    [formatMarketData] shows N/A as its change percent, because the
    percent is tested for truthiness and the quotient of [x - x] by [x]
    is a zero (or [NaN], when [x] is zero or not finite), which is
    falsy. *)
Theorem indexBlock_flat indexSymbol (m : Meta.t) (x : number) :
  Meta.regularMarketPrice m = NVal x ->
  Meta.chartPreviousClose m = NVal x ->
  indexBlock host (indexRecord indexSymbol m) =
    trim (template
      [ templateStr
          (orStr (orStr (orStr (orStr (Meta.shortName m) (Meta.longName m))
                               (SVal indexSymbol))
                        SUndef)
                 (SVal indexSymbol));
        "Price: " ++ optLocale host (NVal x);
        "Change: " ++ optLocale host (NVal (nsub x x)) ++ " (N/A)";
        "Previous Close: " ++ optLocale host (NVal x);
        "Day Range: " ++ optLocale host (Meta.regularMarketDayLow m)
          ++ " - " ++ optLocale host (Meta.regularMarketDayHigh m) ]).
Proof.
  intros Hprice Hprev.
  unfold indexBlock, indexRecord.
  cbn [IndexRecord.symbol IndexRecord.shortName IndexRecord.longName
       IndexRecord.regularMarketPrice IndexRecord.regularMarketChange
       IndexRecord.regularMarketChangePercent
       IndexRecord.regularMarketPreviousClose
       IndexRecord.regularMarketDayHigh IndexRecord.regularMarketDayLow].
  rewrite Hprice, Hprev. cbn [toNumber truthyNum].
  rewrite flat_percent_falsy. reflexivity.
Qed.

End PipelineEdges.

Lemma fetchMarketData_network_down_witness :
  fst (fetchMarketData enUS_UTC down 1000 defaultIndices (freshWorld 0))
    = Returned unableMarket
  /\ totalWait (waits (snd (fetchMarketData enUS_UTC down 1000 defaultIndices
                                            (freshWorld 0))))
     = totalWait (waits (freshWorld 0))
       + 7000 * Z.of_nat (List.length defaultIndices).
Proof.
  destruct (fetchMarketData_network_down enUS_UTC down 1000 defaultIndices
              (freshWorld 0) eq_refl (fun _ _ _ => eq_refl))
    as (H1 & _ & H3 & _).
  split; assumption.
Defined.

Lemma fetchMarketData_no_indices_witness :
  fetchMarketData enUS_UTC down 1000 [] (freshWorld 0)
    = (Returned unableMarket, afterCheck 1000 (freshWorld 0)).
Proof.
  exact (proj1 (fetchMarketData_no_indices enUS_UTC down 1000 (freshWorld 0)
                  eq_refl)).
Defined.

Lemma fetchStockQuote_degraded_witness :
  fst (fetchStockQuote enUS_UTC (always (okResponse (Some gapSeries))) 1000
                       "AAPL" (freshWorld 0)) =
  Returned
    (trim (template
       [ "Symbol: " ++ "AAPL";
         "Name: " ++ "AAPL";
         "Price: $N/A";
         "Change: $NaN (NaN%)";
         "Previous Close: $N/A";
         "";
         "Note: Full quote data is unavailable. Showing limited information from chart data." ])).
Proof.
  apply (fetchStockQuote_degraded enUS_UTC (always (okResponse (Some gapSeries)))
           1000 "AAPL" (freshWorld 0) 0%nat (okResponse (Some gapSeries))
           gapSeries).
  - reflexivity.
  - split; [lia|]. split; [intros i Hi; lia | reflexivity].
  - reflexivity.
  - reflexivity.
  - reflexivity.
Defined.

Lemma fetchStockHistory_ok_response_witness :
  fst (fetchStockHistory enUS_UTC (always (okResponse None)) 1000
                         "AAPL" "1mo" "1d" (freshWorld 0))
    = Returned ("No historical data found for symbol: " ++ "AAPL").
Proof.
  apply (fetchStockHistory_ok_response enUS_UTC (always (okResponse None)) 1000
           "AAPL" "1mo" "1d" (freshWorld 0) 0%nat (okResponse None)).
  - reflexivity.
  - reflexivity.
  - reflexivity.
  - split; [lia|]. split; [intros i Hi; lia | reflexivity].
  - reflexivity.
  - reflexivity.
Defined.

Lemma indexBlock_flat_witness :
  indexBlock enUS_UTC (indexRecord "^GSPC" flatMeta) =
"S&P 500
Price: 5,000
Change: 0 (N/A)
Previous Close: 5,000
Day Range: 4,990 - 5,010".
Proof.
  rewrite (indexBlock_flat enUS_UTC "^GSPC" flatMeta (ofZ 5000)).
  - vm_compute. reflexivity.
  - reflexivity.
  - reflexivity.
Defined.

(* ===================================================================== *)
(** ** Further properties of the history table *)
(* ===================================================================== *)

Section RowFacts.

Local Open Scope nat_scope.

(** X13.  The row loop never reads past the series: every index it
    visits is below the number of points.  A series that is not empty
    starts its table with the first point, and a series of fewer than 20
    points is shown point by point. *)
Theorem rowIndices_in_range n :
  (forall i, In i (rowIndices n) -> i < n)
  /\ (0 < n -> hd_error (rowIndices n) = Some 0)
  /\ (n < 20 -> rowIndices n = seq 0 n).
Proof.
  pose proof (stepOf_pos n) as Hs.
  pose proof (Nat.Div0.mul_div_le (n + stepOf n - 1) (stepOf n)) as Hdiv.
  rewrite rowIndices_stride.
  set (s := stepOf n) in *. set (c := (n + s - 1) / s) in *.
  split; [|split].
  - intros i Hi. apply in_map_iff in Hi. destruct Hi as (j & <- & Hj).
    apply in_seq in Hj. nia.
  - intros Hn.
    assert (Hc : 1 <= c).
    { subst c. apply Nat.div_le_lower_bound; lia. }
    destruct c as [|c']; [lia|]. reflexivity.
  - intros Hn.
    assert (Hs1 : s = 1).
    { subst s. unfold stepOf, maxPoints.
      assert (n / 10 < 2) by (apply Nat.Div0.div_lt_upper_bound; lia).
      lia. }
    subst c. rewrite Hs1. rewrite Nat.div_1_r.
    replace (n + 1 - 1) with n by lia.
    rewrite <- (map_id (seq 0 n)) at 2. apply map_ext. intros j. lia.
Qed.

End RowFacts.

Lemma rowIndices_in_range_witness : hd_error (rowIndices 100) = Some 0%nat.
Proof.
  apply (proj1 (proj2 (rowIndices_in_range 100))). lia.
Defined.

(* ===================================================================== *)
(** ** The type guards and the request handler *)
(* ===================================================================== *)

Section GuardFacts.

(** X14.  [isStockQuoteArgs] and [isStockHistoryArgs] are the same test:
    each accepts exactly the objects whose [symbol] is a string.  The
    history guard looks at neither [period] nor [interval]. *)
Theorem symbol_guards (args : json) :
  (isStockQuoteArgs args = true <->
   exists properties s,
     args = JObject properties
     /\ lookup "symbol" properties = Some (JString s))
  /\ isStockHistoryArgs args = isStockQuoteArgs args.
Proof.
  split; [|reflexivity]. unfold isStockQuoteArgs, hasProp, getProp. split.
  - destruct args as [| b | x | s | items | properties]; cbn;
      try discriminate.
    destruct (lookup "symbol" properties)
      as [[| b | x | s | items | ps]|] eqn:E; cbn; try discriminate.
    intros _. exists properties, s. split; [reflexivity | exact E].
  - intros (properties & s & -> & H). cbn. rewrite H. reflexivity.
Qed.

(** X15.  [isMarketDataArgs] accepts exactly the arrays and the objects
    whose [indices] is missing or is an array; it does not look at the
    elements of that array. *)
Theorem market_guard (args : json) :
  isMarketDataArgs args = true <->
  (exists items, args = JArray items)
  \/ (exists properties,
        args = JObject properties
        /\ (lookup "indices" properties = None
            \/ exists items,
                 lookup "indices" properties = Some (JArray items))).
Proof.
  unfold isMarketDataArgs, hasProp, getProp. split.
  - destruct args as [| b | x | s | items | properties]; cbn;
      try discriminate.
    + intros _. left. exists items. reflexivity.
    + intros H. right. exists properties. split; [reflexivity|].
      destruct (lookup "indices" properties)
        as [[| b | x | s | items | ps]|] eqn:E; cbn in H; try discriminate.
      * right. exists items. reflexivity.
      * left. reflexivity.
  - intros [(items & ->) | (properties & -> & [H | (items & H)])];
      cbn; try rewrite H; reflexivity.
Qed.

End GuardFacts.

Lemma symbol_guards_witness : isStockQuoteArgs weekArgs = true.
Proof.
  apply (proj1 (symbol_guards weekArgs)).
  eexists. exists "AAPL". split; reflexivity.
Defined.

Lemma market_guard_witness :
  isMarketDataArgs (JObject [("indices", JArray [JNumber (ofZ 1); JNull])])
    = true.
Proof.
  apply (market_guard (JObject [("indices", JArray [JNumber (ofZ 1); JNull])])).
  right. eexists. split; [reflexivity|]. right. eexists. reflexivity.
Defined.

Section HandlerFacts.

Variable host : Host.
Variable net : Network.
Variable numberToString : number -> string.

(** What the guards accept is truthy. *)
Lemma guards_truthy a :
  isStockQuoteArgs a = true \/ isMarketDataArgs a = true
  \/ isStockHistoryArgs a = true ->
  truthyArgs (Some a) = true.
Proof.
  destruct a; cbn; intros [H | [H | H]]; try discriminate; reflexivity.
Qed.

(** X16.  Requests the handler turns down before any pipeline runs get
    an error result and leave the world as it was: no unit of the rate
    limit is used and nothing is fetched.  Missing (or falsy) arguments
    give "Error: No arguments provided", whatever the tool name; a name
    that is none of the three tools gives "Unknown tool: <name>";
    arguments that fail the guard of the named tool give "Error: Invalid
    arguments for <tool>". *)
Theorem callTool_rejections now name args w :
  (truthyArgs args = false ->
   callTool host net numberToString now name args w =
     (Returned {| text := "Error: No arguments provided"; isError := true |},
      w))
  /\ (truthyArgs args = true ->
      name <> "yahoo_stock_quote" ->
      name <> "yahoo_market_data" ->
      name <> "yahoo_stock_history" ->
      callTool host net numberToString now name args w =
        (Returned {| text := "Unknown tool: " ++ name; isError := true |}, w))
  /\ (forall a,
        args = Some a ->
        truthyArgs args = true ->
        (name = "yahoo_stock_quote" ->
         isStockQuoteArgs a = false ->
         callTool host net numberToString now name args w =
           (Returned {| text := "Error: Invalid arguments for yahoo_stock_quote";
                        isError := true |}, w))
        /\ (name = "yahoo_market_data" ->
            isMarketDataArgs a = false ->
            callTool host net numberToString now name args w =
              (Returned {| text := "Error: Invalid arguments for yahoo_market_data";
                           isError := true |}, w))
        /\ (name = "yahoo_stock_history" ->
            isStockHistoryArgs a = false ->
            callTool host net numberToString now name args w =
              (Returned {| text := "Error: Invalid arguments for yahoo_stock_history";
                           isError := true |}, w))).
Proof.
  split; [|split].
  - intros Hfalsy. unfold callTool, tryCatch.
    destruct args as [a|]; [|reflexivity]. rewrite Hfalsy. reflexivity.
  - intros Htruthy Hq Hm Hh. unfold callTool, tryCatch.
    destruct args as [a|]; [|discriminate Htruthy]. rewrite Htruthy.
    apply String.eqb_neq in Hq, Hm, Hh. rewrite Hq, Hm, Hh. reflexivity.
  - intros a -> Htruthy. repeat split; intros -> Hguard;
      unfold callTool, tryCatch; rewrite Htruthy; cbn [negb String.eqb];
      rewrite Hguard; reflexivity.
Qed.

(** [fetchStockHistoryArgs] starts with the rate-limit check, whatever
    its arguments. *)
Lemma fetchStockHistoryArgs_limited now symbol period interval w e :
  fst (RateLimiter.checkRateLimit now (counts w)) = inl e ->
  fetchStockHistoryArgs host net numberToString now symbol period interval w
    = (Thrown e, afterCheck now w).
Proof.
  intros Hlimit.
  destruct (limited_pipelines_fetch_nothing host net now w e Hlimit)
    as (_ & _ & Hh).
  unfold fetchStockHistoryArgs.
  destruct period; destruct interval; try apply Hh;
    unfold bind at 1; rewrite (checkRateLimit_throws now w e Hlimit);
    reflexivity.
Qed.

(** So does [fetchMarketDataArgs]. *)
Lemma fetchMarketDataArgs_limited now items w e :
  fst (RateLimiter.checkRateLimit now (counts w)) = inl e ->
  fetchMarketDataArgs host net numberToString now items w
    = (Thrown e, afterCheck now w).
Proof.
  intros Hlimit.
  destruct (limited_pipelines_fetch_nothing host net now w e Hlimit)
    as (_ & Hm & _).
  unfold fetchMarketDataArgs.
  destruct (indexSymbols numberToString items) as [symbols [|]].
  - apply Hm.
  - unfold bind at 1. rewrite (checkRateLimit_throws now w e Hlimit).
    reflexivity.
Qed.

(** X17.  A call of any of the three tools that the rate limiter rejects
    gets the error result "Error: Rate limit exceeded. Please try again
    later."; nothing is fetched. *)
Theorem callTool_rate_limited now name a w :
  fst (RateLimiter.checkRateLimit now (counts w))
    = inl RateLimiter.rateLimitMessage ->
  (name = "yahoo_stock_quote" /\ isStockQuoteArgs a = true)
  \/ (name = "yahoo_market_data" /\ isMarketDataArgs a = true)
  \/ (name = "yahoo_stock_history" /\ isStockHistoryArgs a = true) ->
  callTool host net numberToString now name (Some a) w =
    (Returned {| text := "Error: Rate limit exceeded. Please try again later.";
                 isError := true |},
     afterCheck now w)
  /\ fetched (afterCheck now w) = fetched w.
Proof.
  intros Hlimit Hcase. split; [|reflexivity].
  destruct (limited_pipelines_fetch_nothing host net now w _ Hlimit)
    as (Hq & Hm & _).
  assert (Htruthy : truthyArgs (Some a) = true).
  { apply guards_truthy. tauto. }
  unfold callTool, tryCatch. rewrite Htruthy.
  destruct Hcase as [[-> Hg] | [[-> Hg] | [-> Hg]]];
    cbn [negb String.eqb Ascii.eqb Bool.eqb]; rewrite Hg; cbn [negb];
    unfold bind.
  - rewrite Hq. reflexivity.
  - destruct (getProp "indices" a) as [indices|].
    + rewrite (fetchMarketDataArgs_limited _ _ _ _ Hlimit). reflexivity.
    + rewrite Hm. reflexivity.
  - rewrite (fetchStockHistoryArgs_limited _ _ _ _ _ _ Hlimit). reflexivity.
Qed.

(** X18.  The handler always answers: it returns a result for every
    request, and a result flagged as an error carries a text that starts
    with "Error: ", or is "Unknown tool: <name>". *)
Theorem callTool_always_answers now name args w :
  exists result w',
    callTool host net numberToString now name args w = (Returned result, w')
    /\ (isError result = true ->
        (exists message, text result = "Error: " ++ message)
        \/ text result = "Unknown tool: " ++ name).
Proof.
  assert (Hpipe : forall (m : M string) w0,
            exists result w',
              tryCatch
                (results <- m ;; ret {| text := results; isError := false |})
                (fun e => ret {| text := "Error: " ++ e; isError := true |}) w0
              = (Returned result, w')
              /\ (isError result = true ->
                  (exists message, text result = "Error: " ++ message)
                  \/ text result = "Unknown tool: " ++ name)).
  { intros m w0. unfold tryCatch, bind.
    destruct (m w0) as [[t|e] w1]; eexists; eexists; (split; [reflexivity|]);
      cbn [isError text].
    - discriminate.
    - intros _. left. exists e. reflexivity. }
  assert (Hthrow : forall e w0,
            exists result w',
              tryCatch (throw e)
                (fun e => ret {| text := "Error: " ++ e; isError := true |}) w0
              = (Returned result, w')
              /\ (isError result = true ->
                  (exists message, text result = "Error: " ++ message)
                  \/ text result = "Unknown tool: " ++ name)).
  { intros e w0. eexists; eexists. split; [reflexivity|].
    intros _. left. exists e. reflexivity. }
  unfold callTool.
  destruct args as [a|]; [|apply Hthrow].
  destruct (truthyArgs (Some a)); cbn [negb]; [|apply Hthrow].
  destruct (String.eqb name "yahoo_stock_quote").
  { destruct (isStockQuoteArgs a); cbn [negb]; [apply Hpipe | apply Hthrow]. }
  destruct (String.eqb name "yahoo_market_data").
  { destruct (isMarketDataArgs a); cbn [negb]; [apply Hpipe | apply Hthrow]. }
  destruct (String.eqb name "yahoo_stock_history").
  { destruct (isStockHistoryArgs a); cbn [negb]; [apply Hpipe | apply Hthrow]. }
  eexists; eexists. split; [reflexivity|]. intros _. right. reflexivity.
Qed.

(** X19.  The defaults of the handler.  A history request without
    [period] and [interval] is answered like the same request with
    period "1mo" and interval "1d"; a market-data request without
    [indices] like the same request with the three default indices. *)
Theorem callTool_defaults now properties w :
  (lookup "period" properties = None ->
   lookup "interval" properties = None ->
   callTool host net numberToString now "yahoo_stock_history"
            (Some (JObject properties)) w
   = callTool host net numberToString now "yahoo_stock_history"
       (Some (JObject (("period", JString "1mo")
                       :: ("interval", JString "1d") :: properties))) w)
  /\ (lookup "indices" properties = None ->
      callTool host net numberToString now "yahoo_market_data"
               (Some (JObject properties)) w
      = callTool host net numberToString now "yahoo_market_data"
          (Some (JObject (("indices", JArray (map JString defaultIndices))
                          :: properties))) w).
Proof.
  split.
  - intros Hp Hi. unfold callTool, isStockHistoryArgs, hasProp, propOr, getProp.
    cbn [truthyArgs negb lookup String.eqb Ascii.eqb Bool.eqb typeofObject
         isNull andb].
    rewrite Hp, Hi. reflexivity.
  - intros Hi. unfold callTool, isMarketDataArgs, hasProp, getProp.
    cbn [truthyArgs negb lookup String.eqb Ascii.eqb Bool.eqb typeofObject
         isNull andb orb isArray].
    rewrite Hi. reflexivity.
Qed.

(** X20.  A [period] that is not a string passes the guard of the
    history tool and reaches the pipeline, which refuses it after the
    rate-limit check has used one unit of both counters, and fetches
    nothing.  The message of the refusal converts the value to a string:
    where that conversion returns, the value is reported as an invalid
    period under the string it converts to, so the period ["1d"] (an
    array) is refused with "Invalid period: 1d"; where it throws (an
    object with a [toString] property of its own, or an array that holds
    one), the error is the one of the conversion. *)
Theorem callTool_period_not_string now properties s value w :
  lookup "symbol" properties = Some (JString s) ->
  lookup "period" properties = Some value ->
  (forall p, value <> JString p) ->
  fst (RateLimiter.checkRateLimit now (counts w)) = inr tt ->
  callTool host net numberToString now "yahoo_stock_history"
           (Some (JObject properties)) w =
    (Returned
       {| text :=
            match jsToString numberToString value with
            | Some shown =>
                "Error: Failed to fetch stock history: Invalid period: "
                  ++ shown
                  ++ ". Valid periods are: 1d, 5d, 1mo, 3mo, 6mo, 1y, 2y, 5y, 10y, ytd, max"
            | None =>
                "Error: Failed to fetch stock history: Cannot convert object to primitive value"
            end;
          isError := true |},
     afterCheck now w)
  /\ counts (afterCheck now w)
     = RateLimiter.increment (RateLimiter.resetWindows now (counts w))
  /\ fetched (afterCheck now w) = fetched w.
Proof.
  intros Hsym Hperiod Hnot Hpass. split; [|split].
  - unfold callTool, isStockHistoryArgs, hasProp, propOr, symbolOf, getProp.
    cbn [truthyArgs negb String.eqb Ascii.eqb Bool.eqb typeofObject isNull
         andb].
    rewrite Hsym, Hperiod. cbn [typeofString andb negb].
    assert (E : forall interval,
              fetchStockHistoryArgs host net numberToString now s value
                                    interval w
              = (Thrown
                   ("Failed to fetch stock history: "
                      ++ match jsToString numberToString value with
                         | Some shown => invalidPeriod shown
                         | None => notPrimitive
                         end),
                 afterCheck now w)).
    { intros interval. unfold fetchStockHistoryArgs.
      destruct value as [| b | x | p | items | ps];
        try (exfalso; apply (Hnot p); reflexivity);
        unfold bind at 1; rewrite (checkRateLimit_passes now w Hpass);
        unfold rethrow, tryCatch, bind, templateValue;
        match goal with
        | |- context [jsToString numberToString ?v] =>
            destruct (jsToString numberToString v); reflexivity
        end. }
    unfold tryCatch, bind. rewrite E.
    destruct (jsToString numberToString value); reflexivity.
  - apply checkRateLimit_passed_counts. exact Hpass.
  - reflexivity.
Qed.

(** The strings of a list of elements end before the first element whose
    conversion throws. *)
Lemma indexSymbols_stops before bad after symbols :
  indexSymbols numberToString before = (symbols, true) ->
  jsToString numberToString bad = None ->
  indexSymbols numberToString (before ++ bad :: after) = (symbols, false).
Proof.
  revert symbols.
  induction before as [|item rest IH]; intros symbols Hbefore Hbad.
  - cbn [indexSymbols] in Hbefore. injection Hbefore as <-.
    cbn [app indexSymbols]. rewrite Hbad. reflexivity.
  - cbn [app indexSymbols] in *.
    destruct (jsToString numberToString item) as [indexSymbol|];
      [|discriminate Hbefore].
    destruct (indexSymbols numberToString rest) as [others complete].
    injection Hbefore as <- ->.
    rewrite (IH others eq_refl Hbad). reflexivity.
Qed.

(** X22.  An element of [indices] that cannot be converted to a string
    ends the whole market-data request, unlike an index whose fetch
    fails: the conversion throws in the inner [try], and again in the log
    message of the inner [catch].  The indices before it have been
    fetched by then, one unit of the rate limit is used, and the answer
    is the error of the conversion under the prefix of the pipeline. *)
Theorem callTool_index_not_convertible now properties before bad after
    symbols w :
  lookup "indices" properties = Some (JArray (before ++ bad :: after)) ->
  indexSymbols numberToString before = (symbols, true) ->
  jsToString numberToString bad = None ->
  fst (RateLimiter.checkRateLimit now (counts w)) = inr tt ->
  callTool host net numberToString now "yahoo_market_data"
           (Some (JObject properties)) w =
    (Returned
       {| text := "Error: Failed to fetch market data: Cannot convert object to primitive value";
          isError := true |},
     snd (indexLoop net (now / 1000 - 60) (now / 1000) symbols []
                    (afterCheck now w))).
Proof.
  intros Hindices Hbefore Hbad Hpass.
  unfold callTool, isMarketDataArgs, hasProp, getProp.
  cbn [truthyArgs negb String.eqb Ascii.eqb Bool.eqb typeofObject isNull
       andb].
  rewrite Hindices. cbn [isArray negb orb elementsOf].
  unfold fetchMarketDataArgs.
  rewrite (indexSymbols_stops _ _ after _ Hbefore Hbad).
  unfold tryCatch at 1. unfold bind at 1. unfold bind at 1.
  rewrite (checkRateLimit_passes now w Hpass).
  unfold rethrow, tryCatch, bind. cbv zeta.
  destruct (indexLoop_batch net (now / 1000 - 60) (now / 1000) symbols []
              (afterCheck now w)) as (records & w' & _ & ->).
  reflexivity.
Qed.

End HandlerFacts.

Lemma callTool_rejections_witness :
  callTool enUS_UTC down showNumber 1000 "yahoo_stock_quote"
           (Some (JObject [("symbol", JNumber (ofZ 5))])) (freshWorld 0) =
    (Returned {| text := "Error: Invalid arguments for yahoo_stock_quote";
                 isError := true |}, freshWorld 0).
Proof.
  destruct (callTool_rejections enUS_UTC down showNumber 1000
              "yahoo_stock_quote"
              (Some (JObject [("symbol", JNumber (ofZ 5))])) (freshWorld 0))
    as (_ & _ & H).
  destruct (H _ eq_refl eq_refl) as (Hq & _).
  apply Hq; reflexivity.
Defined.

Lemma callTool_rate_limited_witness :
  callTool enUS_UTC down showNumber 300 "yahoo_stock_quote" (Some appleArgs)
           limitedWorld =
    (Returned {| text := "Error: Rate limit exceeded. Please try again later.";
                 isError := true |},
     afterCheck 300 limitedWorld).
Proof.
  apply (callTool_rate_limited enUS_UTC down showNumber 300
           "yahoo_stock_quote" appleArgs limitedWorld).
  - vm_compute. reflexivity.
  - left. split; reflexivity.
Defined.

Lemma callTool_always_answers_witness :
  exists result w',
    callTool enUS_UTC down showNumber 1000 "yahoo_stock_quote" (Some appleArgs)
             (freshWorld 0) = (Returned result, w')
    /\ (isError result = true ->
        (exists message, text result = "Error: " ++ message)
        \/ text result = "Unknown tool: " ++ "yahoo_stock_quote").
Proof.
  exact (callTool_always_answers enUS_UTC down showNumber 1000
           "yahoo_stock_quote" (Some appleArgs) (freshWorld 0)).
Defined.

Lemma callTool_defaults_witness :
  callTool enUS_UTC (always notFound) showNumber 1000 "yahoo_stock_history"
           (Some appleArgs) (freshWorld 0)
  = callTool enUS_UTC (always notFound) showNumber 1000 "yahoo_stock_history"
      (Some (JObject (("period", JString "1mo")
                      :: ("interval", JString "1d")
                      :: [("symbol", JString "AAPL")]))) (freshWorld 0).
Proof.
  apply (proj1 (callTool_defaults enUS_UTC (always notFound) showNumber 1000
                  [("symbol", JString "AAPL")] (freshWorld 0)));
    reflexivity.
Defined.

Lemma callTool_period_not_string_witness :
  callTool enUS_UTC (always notFound) showNumber 1000 "yahoo_stock_history"
           (Some weekArgs) (freshWorld 0) =
    (Returned
       {| text := "Error: Failed to fetch stock history: Invalid period: 1d. Valid periods are: 1d, 5d, 1mo, 3mo, 6mo, 1y, 2y, 5y, 10y, ytd, max";
          isError := true |},
     afterCheck 1000 (freshWorld 0))
  /\ callTool enUS_UTC (always notFound) showNumber 1000 "yahoo_stock_history"
              (Some opaqueArgs) (freshWorld 0) =
       (Returned
          {| text := "Error: Failed to fetch stock history: Cannot convert object to primitive value";
             isError := true |},
        afterCheck 1000 (freshWorld 0)).
Proof.
  split.
  - apply (proj1 (callTool_period_not_string enUS_UTC (always notFound)
                    showNumber 1000
                    [("symbol", JString "AAPL");
                     ("period", JArray [JString "1d"])]
                    "AAPL" (JArray [JString "1d"]) (freshWorld 0)
                    eq_refl eq_refl
                    (fun p H => ltac:(discriminate H)) eq_refl)).
  - apply (proj1 (callTool_period_not_string enUS_UTC (always notFound)
                    showNumber 1000
                    [("symbol", JString "AAPL"); ("period", opaquePeriod)]
                    "AAPL" opaquePeriod (freshWorld 0)
                    eq_refl eq_refl
                    (fun p H => ltac:(discriminate H)) eq_refl)).
Defined.

Lemma callTool_index_not_convertible_witness :
  callTool enUS_UTC (always notFound) showNumber 1000 "yahoo_market_data"
           (Some opaqueIndices) (freshWorld 0) =
    (Returned
       {| text := "Error: Failed to fetch market data: Cannot convert object to primitive value";
          isError := true |},
     {| counts := RateLimiter.increment (RateLimiter.initial 0);
        fetched :=
          ["https://query2.finance.yahoo.com/v8/finance/chart/%5EGSPC?period1=-59&period2=1&interval=1d&events=history"];
        waits := [] |}).
Proof.
  unfold opaqueIndices.
  rewrite (callTool_index_not_convertible enUS_UTC (always notFound)
             showNumber 1000
             [("indices", JArray [JString "^GSPC"; opaquePeriod; JString "^DJI"])]
             [JString "^GSPC"] opaquePeriod [JString "^DJI"] ["^GSPC"]
             (freshWorld 0) eq_refl eq_refl eq_refl eq_refl).
  vm_compute. reflexivity.
Defined.

(* ===================================================================== *)
(** ** The layout of the quote report *)
(* ===================================================================== *)

Section ReportLayout.

Variable host : Host.

Lemma endsVisible_app a t : endsVisible t -> endsVisible (a ++ t).
Proof.
  intros (s' & c & -> & Hc). exists (a ++ s'), c.
  rewrite string_app_assoc. split; [reflexivity | exact Hc].
Qed.

Lemma trimEnd_visible s : endsVisible s -> trimEnd s = s.
Proof.
  intros (s' & c & -> & Hc). induction s' as [|a s' IH].
  - cbn. rewrite Hc. reflexivity.
  - cbn [append trimEnd]. rewrite IH.
    destruct s'; reflexivity.
Qed.

Lemma trimEnd_newline s : trimEnd (s ++ String "010" "") = trimEnd s.
Proof.
  induction s as [|a s IH]; [reflexivity|].
  cbn [append trimEnd]. rewrite IH. reflexivity.
Qed.

(** The lines of a template, each followed by a line break, are the
    lines joined by line breaks, and one more line break. *)
Lemma lines_joined l ls :
  String.concat "" (map (fun x => x ++ String "010" "") (l :: ls))
    = join (String "010" "") (l :: ls) ++ String "010" "".
Proof.
  revert l. induction ls as [|l2 ls IH]; intros l.
  - cbn. destruct (l ++ String "010" ""); reflexivity.
  - change (map (fun x => x ++ String "010" "") (l :: l2 :: ls))
      with ((l ++ String "010" "")
              :: map (fun x => x ++ String "010" "") (l2 :: ls)).
    unfold join in *.
    cbn [String.concat].
    destruct (map (fun x => x ++ String "010" "") (l2 :: ls)) eqn:E;
      [discriminate E|].
    rewrite <- E, IH. cbn [append].
    rewrite !string_app_assoc. reflexivity.
Qed.

Lemma formatPercent_visible v : endsVisible (formatPercent v).
Proof.
  destruct v as [| | x]; cbn [formatPercent].
  - exists "N/", "A"%char. split; reflexivity.
  - exists "N/", "A"%char. split; reflexivity.
  - exists (toFixed2 (nmul x (ofZ 100))), "%"%char. split; reflexivity.
Qed.

(** X21.  The quote report is its fourteen lines joined by line breaks:
    the [trim] at the end of [formatStockQuote] removes the line breaks
    around the template and nothing of the fields, whatever the payload
    and the host's number formatting. *)
Theorem formatStockQuote_layout (quote : Quote.t) :
  formatStockQuote host quote = join (String "010" "") (quoteLines host quote)
  /\ List.length (quoteLines host quote) = 14%nat.
Proof.
  split; [|reflexivity].
  unfold formatStockQuote, template, trim.
  unfold quoteLines at 1. rewrite lines_joined. fold (quoteLines host quote).
  set (J := join (String "010" "") (quoteLines host quote)).
  assert (HJ : exists R, J = "Symbol: " ++ R).
  { eexists. unfold J, quoteLines, join. cbn [String.concat append].
    reflexivity. }
  destruct HJ as [R HJ].
  assert (Hstart : trimStart (String "010" (J ++ String "010" ""))
                   = J ++ String "010" "").
  { rewrite HJ. reflexivity. }
  rewrite Hstart, trimEnd_newline. apply trimEnd_visible.
  unfold J, quoteLines, join. cbn [String.concat].
  repeat apply endsVisible_app. apply formatPercent_visible.
Qed.

End ReportLayout.
